(** * Payslip generator: a shallow embedding of [payslip_generator.py]

    The script loads a roster from a spreadsheet, derives the net salary,
    renders one PDF per employee on a thread pool and mails each PDF.

    Modelling decisions.
    - A pandas [DataFrame] is a column store: a finite map from column
      names to columns, plus the number of rows.  [df.iterrows()] yields
      one dict per row.
    - A spreadsheet cell is blank ([NaN]), a number or a text.  The numbers
      and their library operations ([+], [-], [str], [format(x, ',.2f')])
      are an interface, [Scalar].  Its instance here is float64: the
      numeric cells of the sheet are floats, and identifiers that are not
      floats are texts.
    - Effects are threaded through a state-and-exception monad over a
      [world]: the spreadsheets on disk, the files written, the mail
      server, standard output, and a log of the calls of [create_payslip]
      and [send_email].
    - A [ThreadPoolExecutor] runs its tasks to completion one after the
      other in an order chosen by the scheduler; [as_completed] yields the
      futures in that order.  The scheduler's choices are a parameter. *)

From Stdlib Require Import ZArith QArith Qabs Qround String Ascii.
From Stdlib Require Import PrimFloat FloatOps FloatAxioms SpecFloat FloatClass.
From stdpp Require Import base option list gmap strings pretty.

(* A decimal literal denotes the nearest float64, as it does in Python. *)
Set Warnings "-inexact-float".

Open Scope string_scope.

(** ** Exceptions and results *)

Inductive exn :=
| ValueError (msg : string)
| TypeError (msg : string)
| AttributeError (msg : string)
| KeyError (key : string)
| OSError (msg : string).

(** [str(e)] *)
Definition exn_str (e : exn) : string :=
  match e with
  | ValueError msg | TypeError msg | AttributeError msg | OSError msg => msg
  | KeyError key => "'" +:+ key +:+ "'"
  end.

Inductive result (A : Type) :=
| Ok (a : A)
| Raise (e : exn).
Arguments Ok {A} a.
Arguments Raise {A} e.

#[global] Instance result_ret : MRet result := λ A a, Ok a.
#[global] Instance result_bind : MBind result := λ A B f r,
  match r with
  | Ok a => f a
  | Raise e => Raise e
  end.

(** ** Numbers and cells *)

Class Scalar (num : Type) := {
  num_add : num → num → num;
  num_sub : num → num → num;
  num_str : num → string;       (* str(x) *)
  num_fmt : num → string        (* format(x, ',.2f') *)
}.

Inductive cell (num : Type) :=
| NaN
| Num (x : num)
| Str (s : string).
Arguments NaN {num}.
Arguments Num {num} x.
Arguments Str {num} s.

(** A row as a dict, [row.to_dict()] *)
Abbreviation dict num := (gmap string (cell num)).

(** [d[key]] on a dict or a row, [df[key]] on a frame *)
Definition getitem {V} (d : gmap string V) (key : string) : result V :=
  match d !! key with
  | Some v => Ok v
  | None => Raise (KeyError key)
  end.

Definition nl : string := String (ascii_of_nat 10) "".

(** [os.path.basename] *)
Fixpoint basename_from (acc s : string) : string :=
  match s with
  | EmptyString => acc
  | String c rest =>
      if Ascii.eqb c "/"%char then basename_from "" rest
      else basename_from (acc +:+ String c "") rest
  end.
Definition basename (path : string) : string := basename_from "" path.

Fixpoint no_slash (s : string) : bool :=
  match s with
  | EmptyString => true
  | String c rest => negb (Ascii.eqb c "/"%char) && no_slash rest
  end.

(** The scheduler of a thread pool: at each step the next task to
    complete is the one at position [pick mod (number pending)]. *)
Fixpoint as_completed {A} (picks : list nat) (pending : list A) (n : nat) : list A :=
  match n with
  | O => []
  | S n' =>
      let k := hd 0%nat picks `mod` length pending in
      match pending !! k with
      | Some t => t :: as_completed (tl picks) (delete k pending) n'
      | None => []
      end
  end.

Section Payslip.
Context {num : Type} `{!Scalar num}.

(** [pd.isna] *)
Definition isna (c : cell num) : bool :=
  match c with
  | NaN => true
  | _ => false
  end.

(** [str(x)], also what an f-string field without format spec gives *)
Definition str_cell (c : cell num) : string :=
  match c with
  | NaN => "nan"
  | Num x => num_str x
  | Str s => s
  end.

(** [f"{x:,.2f}"] *)
Definition format_2f (c : cell num) : result string :=
  match c with
  | NaN => Ok "nan"
  | Num x => Ok (num_fmt x)
  | Str _ => Raise (ValueError "Unknown format code 'f' for object of type 'str'")
  end.

(** Elementwise [+] and [-] of two columns: a blank operand gives a
    blank, two texts concatenate, a text and a number do not add, and
    nothing is subtracted from or by a text. *)
Definition cell_add (a b : cell num) : result (cell num) :=
  match a, b with
  | NaN, _ | _, NaN => Ok NaN
  | Num x, Num y => Ok (Num (num_add x y))
  | Str s, Str t => Ok (Str (s +:+ t))
  | Str _, Num _ => Raise (TypeError "can only concatenate str to str")
  | Num _, Str _ => Raise (TypeError "unsupported operand type(s) for +")
  end.

Definition cell_sub (a b : cell num) : result (cell num) :=
  match a, b with
  | NaN, _ | _, NaN => Ok NaN
  | Num x, Num y => Ok (Num (num_sub x y))
  | _, _ => Raise (TypeError "unsupported operand type(s) for -")
  end.

(** *** Data frames *)

Record DataFrame := {
  nrows : nat;
  columns : gmap string (list (cell num))
}.

(** The cell of a column at a row; a column too short reads as blank. *)
Definition cell_at (col : list (cell num)) (i : nat) : cell num :=
  default NaN (col !! i).

Definition row_at (df : DataFrame) (i : nat) : dict num :=
  (λ col, cell_at col i) <$> columns df.

Definition iterrows (df : DataFrame) : list (dict num) :=
  row_at df <$> seq 0 (nrows df).

Definition series_op (op : cell num → cell num → result (cell num))
    (n : nat) (c1 c2 : list (cell num)) : result (list (cell num)) :=
  mapM (λ i, op (cell_at c1 i) (cell_at c2 i)) (seq 0 n).

(** *** The world *)

(** A page is the list of the texts drawn on it, each with its position
    in millimetres; colours, fonts, rules and the header band are left out. *)
Inductive draw := DrawString (x y : Z) (text : string).

Record message := {
  msg_from : string;
  msg_to : string;
  msg_subject : string;
  msg_body : string;
  msg_attachment_name : string;
  msg_attachment : list draw
}.

Inductive call :=
| CallRender (employee_data : dict num)
| CallSend (to_email : cell num) (attachment_path : string).

Record world := {
  disk : gmap string DataFrame;   (* what pd.read_excel parses, by path *)
  today : string;                 (* datetime.now().strftime("%B %d, %Y") *)
  dirs : gset string;             (* directories created *)
  pdfs : gmap string (list draw); (* files saved by the canvas *)
  locked : gset string;           (* paths that cannot be written *)
  refused : gset string;          (* recipients the mail session fails for *)
  outbox : list message;          (* mail accepted by the server *)
  stdout : list string;           (* lines printed *)
  calls : list call               (* invocations of the two workers *)
}.

Definition M (A : Type) : Type := world → result A * world.

#[global] Instance M_ret : MRet M := λ A a w, (Ok a, w).
#[global] Instance M_bind : MBind M := λ A B f m w,
  match m w with
  | (Ok a, w') => f a w'
  | (Raise e, w') => (Raise e, w')
  end.

Definition raise {A} (e : exn) : M A := λ w, (Raise e, w).
Definition lift {A} (r : result A) : M A := λ w, (r, w).

(** [try: body except Exception as e: handler(e)] *)
Definition try_except {A} (body : M A) (handler : exn → M A) : M A := λ w,
  match body w with
  | (Ok a, w') => (Ok a, w')
  | (Raise e, w') => handler e w'
  end.

Definition print (line : string) : M unit := λ w,
  (Ok tt, {| disk := disk w; today := today w; dirs := dirs w; pdfs := pdfs w;
             locked := locked w; refused := refused w; outbox := outbox w;
             stdout := stdout w ++ [line]; calls := calls w |}).

Definition log_call (c : call) : M unit := λ w,
  (Ok tt, {| disk := disk w; today := today w; dirs := dirs w; pdfs := pdfs w;
             locked := locked w; refused := refused w; outbox := outbox w;
             stdout := stdout w; calls := calls w ++ [c] |}).

(** [Path(d).mkdir(exist_ok=True)] *)
Definition mkdir (d : string) : M unit := λ w,
  (Ok tt, {| disk := disk w; today := today w; dirs := {[d]} ∪ dirs w; pdfs := pdfs w;
             locked := locked w; refused := refused w; outbox := outbox w;
             stdout := stdout w; calls := calls w |}).

Definition now : M string := λ w, (Ok (today w), w).

(** [canvas.save()]: the page is written to the file, in place *)
Definition save (filename : string) (page : list draw) : M unit := λ w,
  if decide (filename ∈ locked w) then
    (Raise (OSError ("[Errno 13] Permission denied: '" +:+ filename +:+ "'")), w)
  else
    (Ok tt, {| disk := disk w; today := today w; dirs := dirs w;
               pdfs := <[filename := page]> (pdfs w);
               locked := locked w; refused := refused w; outbox := outbox w;
               stdout := stdout w; calls := calls w |}).

(** [open(path, 'rb').read()] *)
Definition read_file (path : string) : M (list draw) := λ w,
  match pdfs w !! path with
  | Some page => (Ok page, w)
  | None => (Raise (OSError ("[Errno 2] No such file or directory: '" +:+ path +:+ "'")), w)
  end.

(** [pd.read_excel] *)
Definition read_excel (file_path : string) : M DataFrame := λ w,
  match disk w !! file_path with
  | Some df => (Ok df, w)
  | None => (Raise (OSError ("[Errno 2] No such file or directory: '" +:+ file_path +:+ "'")), w)
  end.

(** *** load_employee_data *)

Definition required_columns : list string :=
  ["Employee ID"; "Name"; "Email"; "Basic Salary"; "Allowances"; "Deductions"].

(** [all(col in df.columns for col in required_columns)] *)
Definition has_required_columns (df : DataFrame) : bool :=
  forallb (λ col, bool_decide (is_Some (columns df !! col))) required_columns.

(** [df[name] = col] *)
Definition set_column (df : DataFrame) (name : string) (col : list (cell num)) : DataFrame :=
  {| nrows := nrows df; columns := <[name := col]> (columns df) |}.

(** [df['Net Salary'] = df['Basic Salary'] + df['Allowances'] - df['Deductions']] *)
Definition calculate_net_salary (df : DataFrame) : result DataFrame :=
  basic ← getitem (columns df) "Basic Salary";
  allowances ← getitem (columns df) "Allowances";
  gross ← series_op cell_add (nrows df) basic allowances;
  deductions ← getitem (columns df) "Deductions";
  net ← series_op cell_sub (nrows df) gross deductions;
  mret (set_column df "Net Salary" net).

(** The validation loop over [df.iterrows()]; [or] does not look at the
    e-mail address when the identifier is already blank. *)
Fixpoint validate (rows : list (dict num)) : result unit :=
  match rows with
  | [] => mret tt
  | row :: rest =>
      id ← getitem row "Employee ID";
      missing ← (if isna id then mret true
                 else email ← getitem row "Email"; mret (isna email));
      if (missing : bool) then
        name ← getitem row "Name";
        Raise (ValueError ("Missing data for employee: " +:+ str_cell name))
      else validate rest
  end.

(** A row the validation loop stops at: the identifier or the e-mail
    address is blank *)
Definition blank_row (row : dict num) : Prop :=
  row !! "Employee ID" = Some NaN ∨ row !! "Email" = Some NaN.

Definition load_employee_data (file_path : string) : M (option DataFrame) :=
  try_except
    (df ← read_excel file_path;
     if negb (has_required_columns df)
     then raise (ValueError "Excel file missing required columns")
     else
       df ← lift (calculate_net_salary df);
       lift (validate (iterrows df));;
       mret (Some df))
    (λ e, print ("Error loading employee data: " +:+ exn_str e);; mret None).

(** What the handler of [load_employee_data] leaves behind for exception [e] *)
Definition load_failure (w : world) (e : exn) : result (option DataFrame) * world :=
  (Ok None, (print ("Error loading employee data: " +:+ exn_str e) w).2).

(** *** create_payslip *)

Definition create_payslip (employee_data : dict num) : M string :=
  log_call (CallRender employee_data);;
  mkdir "payslips";;
  id ← lift (getitem employee_data "Employee ID");
  let employee_id := str_cell id in
  let filename := "payslips/" +:+ employee_id +:+ ".pdf" in
  current_date ← now;
  name ← lift (getitem employee_data "Name");
  email ← lift (getitem employee_data "Email");
  basic ← lift (getitem employee_data "Basic Salary");
  basic_text ← lift (format_2f basic);
  allowances ← lift (getitem employee_data "Allowances");
  allowances_text ← lift (format_2f allowances);
  deductions ← lift (getitem employee_data "Deductions");
  deductions_text ← lift (format_2f deductions);
  net_salary ← lift (getitem employee_data "Net Salary");
  net_text ← lift (format_2f net_salary);
  save filename
    [ DrawString 20 285 "Nashe Graphix Pvt Ltd";
      DrawString 20 270 "MONTHLY PAYSLIP";
      DrawString 20 260 ("Date: " +:+ current_date);
      DrawString 20 240 "Employee Details";
      DrawString 20 220 ("Employee ID: " +:+ employee_id);
      DrawString 20 210 ("Name: " +:+ str_cell name);
      DrawString 20 200 ("Email: " +:+ str_cell email);
      DrawString 20 180 "Salary Breakdown";
      DrawString 20 160 ("💼 Basic Salary: $" +:+ basic_text);
      DrawString 20 150 ("➕ Allowances: $" +:+ allowances_text);
      DrawString 20 140 ("➖ Deductions: $" +:+ deductions_text);
      DrawString 20 120 ("📊 Net Salary: $" +:+ net_text) ];;
  mret filename.

(** *** send_email *)

Record smtp_config := {
  smtp_server : string;
  smtp_port : Z;
  from_email : string;
  password : string
}.

(** [server.sendmail]: the session fails for a refused recipient *)
Definition sendmail (m : message) : M unit := λ w,
  if decide (msg_to m ∈ refused w) then
    (Raise (OSError ("Recipient refused: " +:+ msg_to m)), w)
  else
    (Ok tt, {| disk := disk w; today := today w; dirs := dirs w; pdfs := pdfs w;
               locked := locked w; refused := refused w; outbox := outbox w ++ [m];
               stdout := stdout w; calls := calls w |}).

Definition send_email (to_email : cell num) (subject body attachment_path : string)
    (cfg : smtp_config) : M bool :=
  log_call (CallSend to_email attachment_path);;
  try_except
    (payload ← read_file attachment_path;
     (* msg.as_string() needs a text in the To header *)
     to ← match to_email with
          | Str s => mret s
          | _ => raise (AttributeError "object has no attribute 'encode'")
          end;
     sendmail {| msg_from := from_email cfg; msg_to := to; msg_subject := subject;
                 msg_body := body; msg_attachment_name := basename attachment_path;
                 msg_attachment := payload |};;
     print ("Email sent successfully to " +:+ to);;
     mret true)
    (λ e, print ("Error sending email to " +:+ str_cell to_email +:+ ": " +:+ exn_str e);;
          mret false).

(** *** The thread pool *)

(** A future keeps the outcome of its task, an exception included. *)
Definition run_future {A} (task : M A) : M (result A) := λ w,
  let '(r, w') := task w in (Ok r, w').

Fixpoint run_all {A} (tasks : list (M A)) : M (list (result A)) :=
  match tasks with
  | [] => mret []
  | t :: ts => r ← run_future t; rs ← run_all ts; mret (r :: rs)
  end.

(** The futures of the submitted tasks, in completion order *)
Definition thread_pool {A} (picks : list nat) (tasks : list (M A)) : M (list (result A)) :=
  run_all (as_completed picks tasks (length tasks)).

(** *** generate_payslips_batch *)

(** [for future in as_completed(futures)]: keep the file of a render
    that returned, print the error of one that raised *)
Fixpoint collect_files (futures : list (result string)) (generated_files : list string)
    : M (list string) :=
  match futures with
  | [] => mret generated_files
  | Ok filename :: rest => collect_files rest (generated_files ++ [filename])
  | Raise e :: rest =>
      print ("Error generating payslip: " +:+ exn_str e);;
      collect_files rest generated_files
  end.

(** The body of the submission loop: the identifier is turned into a
    text before the record is handed to the worker. *)
Definition render_task (row : dict num) : result (M string) :=
  id ← getitem row "Employee ID";
  let employee_data := <["Employee ID" := Str (str_cell id)]> row in
  mret (create_payslip employee_data).

Definition generate_payslips_batch (file_path : string) (picks : list nat) : M (list string) :=
  df ← load_employee_data file_path;
  match df with
  | None => mret []
  | Some df =>
      tasks ← lift (mapM render_task (iterrows df));
      futures ← thread_pool picks tasks;
      collect_files futures []
  end.

(** *** send_payslips *)

Definition email_body (name : string) : string :=
  nl +:+ "Dear " +:+ name +:+ "," +:+ nl +:+ nl +:+
  "Please find your payslip for this month attached to this email." +:+ nl +:+ nl +:+
  "Best regards," +:+ nl +:+ "[Your Company Name]" +:+ nl.

(** [for future in as_completed(futures): if future.result(): sent_count += 1] *)
Fixpoint count_sent (futures : list (result bool)) (sent_count : nat) : M nat :=
  match futures with
  | [] => mret sent_count
  | Ok true :: rest => count_sent rest (S sent_count)
  | Ok false :: rest => count_sent rest sent_count
  | Raise e :: _ => raise e
  end.

(** The body of the submission loop over [zip(generated_files, df.iterrows())] *)
Definition send_task (cfg : smtp_config) (pair : string * dict num) : result (M bool) :=
  let '(file_path, row) := pair in
  name ← getitem row "Name";
  email ← getitem row "Email";
  mret (send_email email "Your Payslip for This Month"
          (email_body (str_cell name)) file_path cfg).

Definition send_payslips (generated_files : list string) (df : DataFrame)
    (cfg : smtp_config) (picks : list nat) : M nat :=
  tasks ← lift (mapM (send_task cfg) (zip generated_files (iterrows df)));
  futures ← thread_pool picks tasks;
  count_sent futures 0.

(** *** main *)

Definition excel_file : string := "employees.xlsx".

(** The configuration literal of [main]; the value of the password plays
    no part in the model and is left out. *)
Definition main_smtp_config : smtp_config :=
  {| smtp_server := "smtp.gmail.com"; smtp_port := 587;
     from_email := "nashegraphix@gmail.com"; password := "" |}.

Definition main (picks_render picks_send : list nat) : M unit :=
  print "Generating payslips...";;
  df ← load_employee_data excel_file;
  match df with
  | None => mret tt
  | Some df =>
      generated_files ← generate_payslips_batch excel_file picks_render;
      print (nl +:+ "Sending emails...");;
      sent_count ← send_payslips generated_files df main_smtp_config picks_send;
      print (nl +:+ "Email sending complete!");;
      print ("Successfully sent " +:+ pretty sent_count +:+ " emails out of "
             +:+ pretty (length generated_files))
  end.

(** *** Vocabulary for the properties *)

(** The results of the futures that returned, and the exceptions of those
    that raised, both in completion order *)
Definition returned {A} (futures : list (result A)) : list A :=
  omap (λ r, match r with Ok a => Some a | Raise _ => None end) futures.

Definition raised {A} (futures : list (result A)) : list exn :=
  omap (λ r, match r with Ok _ => None | Raise e => Some e end) futures.

(** The record [generate_payslips_batch] submits for a row *)
Definition employee_data_of (row : dict num) : dict num :=
  <["Employee ID" := Str (str_cell (default NaN (row !! "Employee ID")))]> row.

(** A record [create_payslip] can render: every field it reads is there
    and every amount can be formatted. *)
Definition amount_columns : list string :=
  ["Basic Salary"; "Allowances"; "Deductions"; "Net Salary"].

Definition renderable (employee_data : dict num) : bool :=
  bool_decide (is_Some (employee_data !! "Name")) &&
  bool_decide (is_Some (employee_data !! "Email")) &&
  forallb (λ c, match employee_data !! c with
                | Some v => match format_2f v with Ok _ => true | Raise _ => false end
                | None => false
                end) amount_columns.

(** The call [send_payslips] submits for a pair of the zip *)
Definition to_email_of (pair : string * dict num) : cell num :=
  default NaN (pair.2 !! "Email").

Definition send_of (cfg : smtp_config) (pair : string * dict num) : M bool :=
  send_email (to_email_of pair) "Your Payslip for This Month"
    (email_body (str_cell (default NaN (pair.2 !! "Name")))) pair.1 cfg.

Definition call_of (pair : string * dict num) : call :=
  CallSend (to_email_of pair) pair.1.

(** The message the server accepts when [send_of cfg pair] runs with the
    files [files] on disk and the recipients [bounced] refused, if any *)
Definition delivery (files : gmap string (list draw)) (bounced : gset string)
    (cfg : smtp_config) (pair : string * dict num) : option message :=
  match files !! pair.1, to_email_of pair with
  | Some page, Str to =>
      if decide (to ∈ bounced) then None
      else Some {| msg_from := from_email cfg; msg_to := to;
                   msg_subject := "Your Payslip for This Month";
                   msg_body := email_body (str_cell (default NaN (pair.2 !! "Name")));
                   msg_attachment_name := basename pair.1;
                   msg_attachment := page |}
  | _, _ => None
  end.

(** The file [create_payslip] writes for a record *)
Definition payslip_path (employee_data : dict num) : string :=
  "payslips/" +:+ str_cell (default NaN (employee_data !! "Employee ID")) +:+ ".pdf".

(** A row the loader and the renderer have no quarrel with: identifier
    and e-mail address are there, and no amount is a text. *)
Definition is_text (c : cell num) : bool :=
  match c with
  | Str _ => true
  | _ => false
  end.

Definition salary_columns : list string :=
  ["Basic Salary"; "Allowances"; "Deductions"].

Definition clean_row (row : dict num) : bool :=
  negb (isna (default NaN (row !! "Employee ID"))) &&
  negb (isna (default NaN (row !! "Email"))) &&
  forallb (λ c, negb (is_text (default NaN (row !! c)))) salary_columns.

End Payslip.

Arguments DataFrame num : clear implicits.
Arguments world num : clear implicits.
Arguments message : clear implicits.
Arguments call num : clear implicits.
Arguments M num A : clear implicits.
Arguments smtp_config : clear implicits.

(** ** Numbers: float64 *)

(** Thousands separators, as the [,] of a format spec puts them *)
Fixpoint group_rev (digits : list ascii) (k : nat) : list ascii :=
  match digits with
  | [] => []
  | c :: rest =>
      if (k =? 3)%nat then ","%char :: c :: group_rev rest 1
      else c :: group_rev rest (S k)
  end.

Definition thousands (digits : string) : string :=
  string_of_list_ascii (rev (group_rev (rev (list_ascii_of_string digits)) 0)).

Definition two_digits (n : Z) : string :=
  if (n <? 10)%Z then "0" +:+ pretty n else pretty n.

(** [+] and [-] are the IEEE 754 binary64 operations, rounding to
    nearest, ties to even.  [str] and [format] are read off the number a
    float stands for, a rational.  A blank cell of the sheet is the [NaN]
    of [cell]: the floats in the [Num] cells of a sheet are numbers, and
    so are their sums and differences, up to an infinity past the largest
    float.  A whole amount below [2^53] from an integer column adds,
    subtracts and formats as its float does; only its [str] differs,
    which the program takes of identifiers, names and addresses. *)

(** A rational rounded to the nearest integer, ties to even *)
Definition round_half_even (x : Q) : Z :=
  let n := Qnum x in
  let d := Z.pos (Qden x) in
  let q := (n / d)%Z in
  let r := (n mod d)%Z in
  if (2 * r <? d)%Z then q
  else if (d <? 2 * r)%Z then (q + 1)%Z
  else if Z.even q then q else (q + 1)%Z.

(** The magnitude of a rational with two fraction digits and thousands
    separators *)
Definition Q_magnitude (x : Q) : string :=
  let cents := round_half_even (Qabs x * 100) in
  thousands (pretty (cents / 100)%Z) +:+ "." +:+ two_digits (cents mod 100)%Z.

(** The number [m * 2^e] *)
Definition dyadic (m e : Z) : Q :=
  if (0 <=? e)%Z then inject_Z (m * 2 ^ e) else m # (2 ^ Z.to_pos (- e)).

(** The number a finite float stands for *)
Definition float_value (x : float) : Q :=
  match Prim2SF x with
  | S754_finite s m e => dyadic (if s then Z.neg m else Z.pos m) e
  | _ => 0
  end.

(** [format(x, ',.2f')] without its sign: the exact value rounded to two
    fraction digits, ties to even *)
Definition float64_magnitude (x : float) : string :=
  match classify x with
  | FloatClass.NaN => "nan"
  | PInf | NInf => "inf"
  | _ => Q_magnitude (float_value x)
  end.

(** [format(x, ',.2f')]: the sign is that of the float, so a negative
    amount that rounds to zero, and minus zero, keep their [-] *)
Definition float64_fmt (x : float) : string :=
  match classify x with
  | NInf | NNormal | NSubn | NZero => "-" +:+ float64_magnitude x
  | _ => float64_magnitude x
  end.

Definition Qlt_bool (x y : Q) : bool := negb (Qle_bool y x).

Definition pow10 (n : Z) : Q :=
  if (0 <=? n)%Z then inject_Z (10 ^ n) else 1 # (10 ^ Z.to_pos (- n)).

(** Whether the decimal [c] reads back as the float [m * 2^e]: it lies
    between the midpoints to the two neighbouring floats, a midpoint
    itself going to the float whose mantissa is even. *)
Definition reads_back (m e : Z) (c : Q) : bool :=
  let x := dyadic m e in
  let up := dyadic (m + 1) e in
  let down := if (m =? 2 ^ 52)%Z && (-1074 <? e)%Z then dyadic (2 * m - 1) (e - 1)
              else dyadic (m - 1) e in
  let low := ((x + down) / 2)%Q in
  let high := ((x + up) / 2)%Q in
  (Qlt_bool low c && Qlt_bool c high) || (Z.even m && (Qeq_bool c low || Qeq_bool c high)).

(** The [n] with [10^(n-1) <= v < 10^n]; a float lies below [10^309] and,
    unless zero, above [10^-324] *)
Fixpoint decimal_point_from (v : Q) (n : Z) (fuel : nat) : Z :=
  match fuel with
  | O => n
  | S fuel' => if Qlt_bool v (pow10 n) then n else decimal_point_from v (n + 1) fuel'
  end.
Definition decimal_point (v : Q) : Z := decimal_point_from v (-330) 700.

Fixpoint strip_zeros_rev (s : list ascii) : list ascii :=
  match s with
  | "0"%char :: rest => strip_zeros_rev rest
  | _ => s
  end.
Definition strip_zeros (s : string) : string :=
  string_of_list_ascii (rev (strip_zeros_rev (rev (list_ascii_of_string s)))).

(** The shortest digits that read back as the float [m * 2^e], and the
    position of the decimal point before them: the digits stand for
    [0.digits * 10^point].  Of two candidates with [k] digits the nearer
    one is taken, the one with the even last digit when they are equally
    near; 17 digits always read back. *)
Fixpoint shortest_from (m e n k : Z) (fuel : nat) : string * Z :=
  let v := dyadic m e in
  let u := pow10 (n - k) in
  let lo := Qfloor (v / u) in
  let hi := (lo + 1)%Z in
  let lo_ok := reads_back m e (inject_Z lo * u) in
  let hi_ok := reads_back m e (inject_Z hi * u) in
  let lo_nearer := match (v - inject_Z lo * u ?= inject_Z hi * u - v)%Q with
                   | Lt => true
                   | Eq => Z.even lo
                   | Gt => false
                   end in
  let pick c :=
    (strip_zeros (pretty c), (n + (Z.of_nat (String.length (pretty c)) - k))%Z) in
  match fuel with
  | O => pick lo
  | S fuel' =>
      if lo_ok && (negb hi_ok || lo_nearer) then pick lo
      else if hi_ok then pick hi
      else shortest_from m e n (k + 1) fuel'
  end.
Definition shortest (m e : Z) : string * Z :=
  shortest_from m e (decimal_point (dyadic m e)) 1 17.

Fixpoint zeros (n : nat) : string :=
  match n with
  | O => ""
  | S n' => "0" +:+ zeros n'
  end.
Definition string_take (n : nat) (s : string) : string := String.substring 0 n s.
Definition string_drop (n : nat) (s : string) : string :=
  String.substring n (String.length s - n) s.

(** [repr] of a positive float from its shortest digits: positional
    between [1e-4] and [1e16], with an exponent outside *)
Definition repr_digits (digits : string) (point : Z) : string :=
  let len := Z.of_nat (String.length digits) in
  if (-4 <? point)%Z && (point <=? 16)%Z then
    if (point <=? 0)%Z then "0." +:+ zeros (Z.to_nat (- point)) +:+ digits
    else if (len <=? point)%Z then digits +:+ zeros (Z.to_nat (point - len)) +:+ ".0"
    else string_take (Z.to_nat point) digits +:+ "." +:+ string_drop (Z.to_nat point) digits
  else
    let exponent := (point - 1)%Z in
    string_take 1 digits +:+
    (if (1 <? len)%Z then "." +:+ string_drop 1 digits else "") +:+
    "e" +:+ (if (exponent <? 0)%Z then "-" else "+") +:+ two_digits (Z.abs exponent).

(** [str(x)] of a float, which is its [repr]: [104.0] prints as ['104.0'] *)
Definition float64_str (x : float) : string :=
  match Prim2SF x with
  | S754_nan => "nan"
  | S754_infinity s => if s then "-inf" else "inf"
  | S754_zero s => if s then "-0.0" else "0.0"
  | S754_finite s m e =>
      let '(digits, point) := shortest (Z.pos m) e in
      (if s then "-" else "") +:+ repr_digits digits point
  end.

#[global] Instance float64_scalar : Scalar float :=
  {| num_add := PrimFloat.add; num_sub := PrimFloat.sub;
     num_str := float64_str; num_fmt := float64_fmt |}.

(** The values below zero in the specification of binary64 *)
Definition SFnegative (x : spec_float) : bool :=
  match x with
  | S754_infinity true | S754_finite true _ _ => true
  | _ => false
  end.

(** ** A roster to run the script on *)

Definition roster : DataFrame float :=
  {| nrows := 4;
     columns := list_to_map
       [ ("Employee ID", [Str "101"; Str "102"; Str "E-103"; Str "104"]);
         ("Name", [Str "Ada"; Str "Ben"; Str "Cleo"; Str "Dov"]);
         ("Email", [Str "ada@example.org"; Str "ben@example.org";
                    Str "cleo@example.org"; Str "dov@example.org"]);
         ("Basic Salary", [Num 1000; Num 2000; Num 500; Num 300.505]);
         ("Allowances", [Num 200; Num 0; Num 100; Num 50]);
         ("Deductions", [Num 50; Num 0; Num 600; Num 400.75]) ]%float |}.

(** The same roster with the e-mail address of the second row left blank *)
Definition roster_blank_email : DataFrame float :=
  {| nrows := nrows roster;
     columns := <["Email" := [Str "ada@example.org"; NaN; Str "cleo@example.org";
                              Str "dov@example.org"]]> (columns roster) |}.

(** The same roster without its Deductions column *)
Definition roster_no_deductions : DataFrame float :=
  {| nrows := nrows roster; columns := delete "Deductions" (columns roster) |}.

Definition world_of (df : DataFrame float) : world float :=
  {| disk := {[ excel_file := df ]}; today := "November 05, 2026"; dirs := ∅;
     pdfs := ∅; locked := ∅; refused := ∅; outbox := []; stdout := []; calls := [] |}.

(** A day on which one payslip cannot be written and one mailbox bounces *)
Definition bad_day : world float :=
  {| disk := {[ excel_file := roster ]}; today := "November 05, 2026"; dirs := ∅;
     pdfs := ∅; locked := {[ "payslips/102.pdf" ]}; refused := {[ "cleo@example.org" ]};
     outbox := []; stdout := []; calls := [] |}.

(** What [load_employee_data] hands back for [roster] *)
Definition loaded_roster : DataFrame float :=
  set_column roster "Net Salary"
    [Num (1000 + 200 - 50); Num (2000 + 0 - 0); Num (500 + 100 - 600);
     Num (300.505 + 50 - 400.75)]%float.

(** The record submitted for the first row of the loaded roster *)
Definition ada : dict float := employee_data_of (row_at loaded_roster 0).

(** What a run on [bad_day] has after its rendering stage: the files, in
    the order the renders completed, and the world *)
Definition rendered_files : list string :=
  ["payslips/E-103.pdf"; "payslips/101.pdf"; "payslips/104.pdf"].

Definition after_rendering : world float :=
  (generate_payslips_batch excel_file [1; 1]%nat bad_day).2.

(** The same roster with the allowances of the second row left blank *)
Definition roster_blank_allowance : DataFrame float :=
  {| nrows := nrows roster;
     columns := <["Allowances" := [Num 200; NaN; Num 100; Num 50]%float]> (columns roster) |}.

(** The same roster without its Name column, and a sheet with the header
    row only *)
Definition roster_no_name : DataFrame float :=
  {| nrows := nrows roster; columns := delete "Name" (columns roster) |}.

Definition empty_roster : DataFrame float :=
  {| nrows := 0; columns := (λ _, []) <$> columns roster |}.

(** What [load_employee_data] hands back for [roster_blank_allowance] *)
Definition loaded_blank_allowance : DataFrame float :=
  set_column roster_blank_allowance "Net Salary"
    [Num (1000 + 200 - 50); NaN; Num (500 + 100 - 600);
     Num (300.505 + 50 - 400.75)]%float.

(** A payroll in float64, with texts for identifiers.  The deductions of
    both rows exceed basic salary plus allowances. *)
Definition payroll : DataFrame float :=
  {| nrows := 2;
     columns := list_to_map
       [ ("Employee ID", [Str "E-201"; Str "E-202"]);
         ("Name", [Str "Eve"; Str "Fay"]);
         ("Email", [Str "eve@example.org"; Str "fay@example.org"]);
         ("Basic Salary", [Num 300.505; Num 0.1]);
         ("Allowances", [Num 50; Num 0.2]);
         ("Deductions", [Num 400.75; Num 0.30000000000000004]) ]%float |}.

Definition payroll_world : world float :=
  {| disk := {[ excel_file := payroll ]}; today := "November 05, 2026"; dirs := ∅;
     pdfs := ∅; locked := ∅; refused := ∅; outbox := []; stdout := []; calls := [] |}.

(** What [load_employee_data] hands back for [payroll] *)
Definition loaded_payroll : DataFrame float :=
  set_column payroll "Net Salary"
    [Num (300.505 + 50 - 400.75); Num (0.1 + 0.2 - 0.30000000000000004)]%float.

(** * Properties *)

Ltac munfold :=
  unfold mbind, mret, M_bind, M_ret, result_bind, result_ret, lift, raise, try_except in *.

Ltac in_list := apply list_elem_of_In; simpl; repeat (first [left; reflexivity | right]).

Section Properties.
Local Open Scope nat_scope.
Local Open Scope list_scope.
Context {num : Type} `{!Scalar num}.
Implicit Types (df : DataFrame num) (w : world num) (row : dict num) (i j k n : nat).

(** ** Rows and columns *)

Lemma row_at_lookup df i c :
  row_at df i !! c = (λ col, cell_at col i) <$> columns df !! c.
Proof. unfold row_at. by rewrite lookup_fmap. Qed.

Lemma length_iterrows df : length (iterrows df) = nrows df.
Proof. unfold iterrows. by rewrite length_fmap, length_seq. Qed.

Lemma iterrows_lookup df i :
  i < nrows df → iterrows df !! i = Some (row_at df i).
Proof.
  intros Hi. unfold iterrows.
  rewrite list_lookup_fmap, lookup_seq_lt by done. done.
Qed.

Lemma iterrows_lookup_inv df i row :
  iterrows df !! i = Some row → i < nrows df ∧ row = row_at df i.
Proof.
  intros Hrow. assert (i < nrows df) as Hi.
  { rewrite <- length_iterrows. eapply lookup_lt_Some, Hrow. }
  rewrite iterrows_lookup in Hrow by done. split; congruence.
Qed.

Lemma getitem_Ok {V} (d : gmap string V) key v :
  getitem d key = Ok v ↔ d !! key = Some v.
Proof. unfold getitem. destruct (d !! key); split; congruence. Qed.

Lemma getitem_Some {V} (d : gmap string V) key v :
  d !! key = Some v → getitem d key = Ok v.
Proof. apply getitem_Ok. Qed.

Lemma has_required_columns_spec df :
  has_required_columns df = true ↔
  ∀ c, c ∈ required_columns → is_Some (columns df !! c).
Proof.
  unfold has_required_columns. rewrite forallb_forall. split.
  - intros Hall c Hc. apply list_elem_of_In, Hall, bool_decide_eq_true in Hc. done.
  - intros Hall c Hc. apply bool_decide_eq_true, Hall, list_elem_of_In, Hc.
Qed.

(** ** Elementwise column arithmetic *)

Lemma mapM_result_lookup {A B} (f : A → result B) (l : list A) (ys : list B) :
  mapM f l = Ok ys →
  length ys = length l ∧
  ∀ i x, l !! i = Some x → ∃ y, ys !! i = Some y ∧ f x = Ok y.
Proof.
  revert ys. induction l as [|x l IH]; intros ys; simpl.
  - intros [= <-]. split; [done|]. intros i x'. by rewrite lookup_nil.
  - munfold. destruct (f x) as [y|] eqn:Hfx; [|done].
    destruct (mapM f l) as [ys'|] eqn:Hl; [|done].
    intros [= <-]. destruct (IH ys' eq_refl) as [Hlen Hnth].
    split; [simpl; congruence|].
    intros [|i] x'; simpl.
    + intros [= <-]. eauto.
    + apply Hnth.
Qed.

Lemma series_op_lookup op n (c1 c2 col : list (cell num)) i :
  series_op op n c1 c2 = Ok col → i < n →
  op (cell_at c1 i) (cell_at c2 i) = Ok (cell_at col i).
Proof.
  intros Hop Hi. apply mapM_result_lookup in Hop as [_ Hnth].
  destruct (Hnth i i) as (y & Hy & ->); [by apply lookup_seq_lt|].
  unfold cell_at. by rewrite Hy.
Qed.

(** ** The loader, case by case *)

Lemma load_employee_data_cases file_path w :
  load_employee_data file_path w =
  match disk w !! file_path with
  | None =>
      load_failure w
        (OSError ("[Errno 2] No such file or directory: '" +:+ file_path +:+ "'"))
  | Some df =>
      if has_required_columns df then
        match calculate_net_salary df with
        | Raise e => load_failure w e
        | Ok df' =>
            match validate (iterrows df') with
            | Raise e => load_failure w e
            | Ok _ => (Ok (Some df'), w)
            end
        end
      else load_failure w (ValueError "Excel file missing required columns")
  end.
Proof.
  unfold load_employee_data, load_failure, read_excel. munfold.
  destruct (disk w !! file_path) as [df|]; [|done].
  destruct (has_required_columns df); simpl; [|done].
  destruct (calculate_net_salary df) as [df'|e]; [|done].
  destruct (validate (iterrows df')) as [[]|e]; done.
Qed.

Lemma load_employee_data_Some file_path w df' w' :
  load_employee_data file_path w = (Ok (Some df'), w') →
  w' = w ∧ ∃ df,
    disk w !! file_path = Some df ∧ has_required_columns df = true ∧
    calculate_net_salary df = Ok df' ∧ validate (iterrows df') = Ok tt.
Proof.
  rewrite load_employee_data_cases. unfold load_failure.
  destruct (disk w !! file_path) as [df|]; [|done].
  destruct (has_required_columns df) eqn:Hcols; [|done].
  destruct (calculate_net_salary df) as [df1|] eqn:Hnet; [|done].
  destruct (validate (iterrows df1)) as [[]|] eqn:Hval; [|done].
  intros [= <- <-]. eauto 10.
Qed.

Lemma calculate_net_salary_Ok df df' :
  calculate_net_salary df = Ok df' →
  ∃ basic allowances deductions gross net,
    columns df !! "Basic Salary" = Some basic ∧
    columns df !! "Allowances" = Some allowances ∧
    columns df !! "Deductions" = Some deductions ∧
    series_op cell_add (nrows df) basic allowances = Ok gross ∧
    series_op cell_sub (nrows df) gross deductions = Ok net ∧
    df' = set_column df "Net Salary" net.
Proof.
  unfold calculate_net_salary. munfold.
  destruct (getitem (columns df) "Basic Salary") as [basic|] eqn:Hb; [|done].
  destruct (getitem (columns df) "Allowances") as [allowances|] eqn:Ha; [|done].
  destruct (series_op cell_add _ _ _) as [gross|] eqn:Hg; [|done].
  destruct (getitem (columns df) "Deductions") as [deductions|] eqn:Hd; [|done].
  destruct (series_op cell_sub _ _ _) as [net|] eqn:Hn; [|done].
  intros [= <-]. apply getitem_Ok in Hb, Ha, Hd. eauto 12.
Qed.

Lemma row_at_set_column_ne df name col i c :
  c ≠ name → row_at (set_column df name col) i !! c = row_at df i !! c.
Proof.
  intros Hne. rewrite !row_at_lookup. simpl. by rewrite lookup_insert_ne.
Qed.

Lemma row_at_set_column_eq df name col i :
  row_at (set_column df name col) i !! name = Some (cell_at col i).
Proof. rewrite row_at_lookup. simpl. by rewrite lookup_insert_eq. Qed.

Lemma row_at_required df i c :
  has_required_columns df = true → c ∈ required_columns →
  is_Some (row_at df i !! c).
Proof.
  intros Hcols Hc. rewrite row_at_lookup.
  destruct (proj1 (has_required_columns_spec df) Hcols c Hc) as [col ->]. by eexists.
Qed.

(** ** The validation loop *)

Lemma validate_stops rows :
  (∀ row, row ∈ rows →
     is_Some (row !! "Employee ID") ∧ is_Some (row !! "Email") ∧ is_Some (row !! "Name")) →
  ∀ i bad, rows !! i = Some bad → blank_row bad →
  ∃ j row name,
    j ≤ i ∧ rows !! j = Some row ∧ blank_row row ∧ row !! "Name" = Some name ∧
    (∀ k r, k < j → rows !! k = Some r → ¬ blank_row r) ∧
    validate rows = Raise (ValueError ("Missing data for employee: " +:+ str_cell name)).
Proof.
  induction rows as [|row rows IH]; intros Hkeys i bad Hi Hbad; [by rewrite lookup_nil in Hi|].
  destruct (Hkeys row) as ([id Hid] & [email Hemail] & [name Hname]); [by left|].
  assert (blank_row row ∨ ¬ blank_row row) as [Hrow|Hrow].
  { unfold blank_row. rewrite Hid, Hemail.
    destruct id; [by left; left| |]; (destruct email; [by left; right| |]);
      right; intros [|]; congruence. }
  - exists 0, row, name. split; [lia|]. split; [done|]. split; [done|]. split; [done|].
    split; [intros k r Hk; lia|].
    simpl. rewrite (getitem_Some _ _ _ Hid), (getitem_Some _ _ _ Hemail), (getitem_Some _ _ _ Hname). munfold.
    destruct Hrow as [Hrow|Hrow]; rewrite ?Hid, ?Hemail in Hrow; simplify_eq; simpl; [done|].
    by destruct id.
  - destruct i as [|i]; [simpl in Hi; by simplify_eq|].
    destruct (IH (λ r Hr, Hkeys r (list_elem_of_further _ _ _ Hr)) i bad Hi Hbad)
      as (j & row' & name' & Hj & Hrow' & Hblank & Hname' & Hfirst & Hval).
    exists (S j), row', name'. split; [lia|]. split; [done|]. split; [done|]. split; [done|].
    split.
    { intros [|k] r Hk; simpl; [by intros [= <-]|]. apply Hfirst. lia. }
    simpl. rewrite (getitem_Some _ _ _ Hid), (getitem_Some _ _ _ Hemail). munfold.
    assert (isna id = false) as ->.
    { destruct id; try done. exfalso. apply Hrow. left. by rewrite Hid. }
    assert (isna email = false) as ->.
    { destruct email; try done. exfalso. apply Hrow. right. by rewrite Hemail. }
    exact Hval.
Qed.

Lemma validate_Ok rows :
  validate rows = Ok tt →
  ∀ row, row ∈ rows →
  ∃ id email, row !! "Employee ID" = Some id ∧ row !! "Email" = Some email ∧
              id ≠ NaN ∧ email ≠ NaN.
Proof.
  induction rows as [|r rows IH]; intros Hval row Hrow; [by apply elem_of_nil in Hrow|].
  simpl in Hval. munfold. unfold getitem in Hval.
  destruct (r !! "Employee ID") as [id|] eqn:Hid; [|done].
  destruct (isna id) eqn:Hna.
  { destruct (r !! "Name"); done. }
  destruct (r !! "Email") as [email|] eqn:Hemail; [|done].
  destruct (isna email) eqn:Hna'.
  { destruct (r !! "Name"); done. }
  apply elem_of_cons in Hrow as [->|Hrow]; [|by apply IH].
  exists id, email. repeat split; try done.
  - intros ->. done.
  - intros ->. done.
Qed.

(** ** Claims about the loader *)

(** The columns behind a loaded roster, and the arithmetic at one row *)
Lemma loaded_row_cells file_path w df' w' i :
  load_employee_data file_path w = (Ok (Some df'), w') →
  i < nrows df' →
  ∃ df basic allowances deductions gross net,
    disk w !! file_path = Some df ∧
    df' = set_column df "Net Salary" net ∧
    columns df !! "Basic Salary" = Some basic ∧
    columns df !! "Allowances" = Some allowances ∧
    columns df !! "Deductions" = Some deductions ∧
    cell_add (cell_at basic i) (cell_at allowances i) = Ok (cell_at gross i) ∧
    cell_sub (cell_at gross i) (cell_at deductions i) = Ok (cell_at net i).
Proof.
  intros Hload Hi.
  apply load_employee_data_Some in Hload as (-> & df & Hdisk & Hcols & Hnet & _).
  apply calculate_net_salary_Ok in Hnet
    as (basic & allowances & deductions & gross & net & Hb & Ha & Hd & Hg & Hn & ->).
  simpl in Hi. exists df, basic, allowances, deductions, gross, net.
  split_and!; try done; by eapply series_op_lookup.
Qed.

Lemma net_of_numbers (basic allowances deductions gross net : cell num) b a d :
  cell_add basic allowances = Ok gross → cell_sub gross deductions = Ok net →
  basic = Num b → allowances = Num a → deductions = Num d →
  net = Num (num_sub (num_add b a) d).
Proof.
  intros Hgross Hnet -> -> ->. simpl in Hgross. injection Hgross as <-.
  simpl in Hnet. by injection Hnet as <-.
Qed.

(** C1. For every row of a roster that loaded, the stored Net Salary is
    Basic Salary + Allowances - Deductions, as the column arithmetic
    computes it and with nothing applied to the result afterwards.  The
    other fields of the row are the source's; a Net Salary column of the
    source plays no part. *)
Theorem net_salary_is_derived file_path w df' w' i :
  load_employee_data file_path w = (Ok (Some df'), w') →
  i < nrows df' →
  ∃ df basic allowances deductions gross net,
    disk w !! file_path = Some df ∧ nrows df' = nrows df ∧
    (∀ c, c ≠ "Net Salary" → row_at df' i !! c = row_at df i !! c) ∧
    row_at df' i !! "Basic Salary" = Some basic ∧
    row_at df' i !! "Allowances" = Some allowances ∧
    row_at df' i !! "Deductions" = Some deductions ∧
    row_at df' i !! "Net Salary" = Some net ∧
    cell_add basic allowances = Ok gross ∧
    cell_sub gross deductions = Ok net ∧
    (∀ b a d, basic = Num b → allowances = Num a → deductions = Num d →
              net = Num (num_sub (num_add b a) d)).
Proof.
  intros Hload Hi.
  destruct (loaded_row_cells _ _ _ _ i Hload Hi)
    as (df & basic & allowances & deductions & gross & net &
        Hdisk & -> & Hb & Ha & Hd & Hgross & Hnet).
  exists df, (cell_at basic i), (cell_at allowances i), (cell_at deductions i),
    (cell_at gross i), (cell_at net i).
  split; [done|]. split; [done|].
  split. { intros c Hc. by apply row_at_set_column_ne. }
  rewrite !row_at_set_column_ne by done. rewrite row_at_set_column_eq, !row_at_lookup.
  rewrite Hb, Ha, Hd. simpl. repeat (split; [done|]).
  intros b a d. exact (net_of_numbers _ _ _ _ _ b a d Hgross Hnet).
Qed.

(** C3. Loading is whole-batch: when some row of the source has a blank
    identifier or a blank e-mail address, the load fails and hands back no
    records.  When the six columns are there and the net salary could be
    computed, the message names the first such row. *)
Theorem load_rejects_blank_row file_path w df i :
  disk w !! file_path = Some df →
  i < nrows df →
  blank_row (row_at df i) →
  ∃ e, load_employee_data file_path w = load_failure w e ∧
       (has_required_columns df = true →
        (∃ df', calculate_net_salary df = Ok df') →
        ∃ j name,
          j ≤ i ∧ blank_row (row_at df j) ∧ row_at df j !! "Name" = Some name ∧
          (∀ k, k < j → ¬ blank_row (row_at df k)) ∧
          e = ValueError ("Missing data for employee: " +:+ str_cell name)).
Proof.
  intros Hdisk Hi Hblank. rewrite load_employee_data_cases, Hdisk.
  destruct (has_required_columns df) eqn:Hcols; [|by eexists; split].
  destruct (calculate_net_salary df) as [df'|e] eqn:Hnet.
  2: { exists e. split; [done|]. by intros _ [? ?]. }
  apply calculate_net_salary_Ok in Hnet as (? & ? & ? & ? & net & _ & _ & _ & _ & _ & ->).
  set (df' := set_column df "Net Salary" net).
  assert (∀ k c, c ≠ "Net Salary" → row_at df' k !! c = row_at df k !! c) as Hsame.
  { intros k c Hc. by apply row_at_set_column_ne. }
  assert (∀ k, blank_row (row_at df' k) ↔ blank_row (row_at df k)) as Hblank'.
  { intros k. unfold blank_row. by rewrite !Hsame. }
  assert (∀ row, row ∈ iterrows df' →
            is_Some (row !! "Employee ID") ∧ is_Some (row !! "Email") ∧
            is_Some (row !! "Name")) as Hkeys.
  { intros row [k Hk]%list_elem_of_lookup. apply iterrows_lookup_inv in Hk as [_ ->].
    rewrite !Hsame by done.
    split_and!; apply row_at_required; try done; in_list. }
  assert (iterrows df' !! i = Some (row_at df' i)) as Hith by (by apply iterrows_lookup).
  destruct (validate_stops _ Hkeys i _ Hith (proj2 (Hblank' i) Hblank))
    as (j & row & name & Hj & Hrow & Hbl & Hname & Hfirst & Hval).
  apply iterrows_lookup_inv in Hrow as [Hjn ->]. simpl in Hjn.
  rewrite Hval. eexists. split; [done|]. intros _ _.
  exists j, name. split; [done|]. split; [by apply Hblank'|].
  split; [by rewrite <- Hsame|]. split; [|done].
  intros k Hk Hbk. apply (Hfirst k (row_at df' k)); [done| |by apply Hblank'].
  apply iterrows_lookup. simpl. lia.
Qed.

(** The invariant of a loaded roster: no record lacks its identifier or
    its e-mail address. *)
Lemma loaded_rows_complete file_path w df' w' i :
  load_employee_data file_path w = (Ok (Some df'), w') →
  i < nrows df' →
  ∃ id email,
    row_at df' i !! "Employee ID" = Some id ∧ row_at df' i !! "Email" = Some email ∧
    id ≠ NaN ∧ email ≠ NaN.
Proof.
  intros (_ & df & _ & _ & _ & Hval)%load_employee_data_Some Hi.
  apply (validate_Ok _ Hval), list_elem_of_lookup. exists i. by apply iterrows_lookup.
Qed.

(** C4. A source that lacks one of the six required columns does not load:
    the loader reports the missing columns and hands back no records. *)
Theorem load_rejects_missing_column file_path w df c :
  disk w !! file_path = Some df →
  c ∈ required_columns →
  columns df !! c = None →
  load_employee_data file_path w =
    load_failure w (ValueError "Excel file missing required columns").
Proof.
  intros Hdisk Hc Hnone. rewrite load_employee_data_cases, Hdisk.
  destruct (has_required_columns df) eqn:Hcols; [|done].
  destruct (proj1 (has_required_columns_spec df) Hcols c Hc) as [col Hcol]. congruence.
Qed.


(** ** Rendering one payslip *)

Ltac step_render :=
  match goal with
  | |- context [getitem ?d ?k] => destruct (getitem d k) eqn:?; simpl
  | |- context [format_2f ?c] => destruct (format_2f c) eqn:?; simpl
  | |- context [decide (?f ∈ locked ?w)] => destruct (decide (f ∈ locked w)); simpl
  end.

Lemma create_payslip_frame (employee_data : dict num) w r w' :
  create_payslip employee_data w = (r, w') →
  disk w' = disk w ∧ locked w' = locked w ∧ refused w' = refused w ∧
  outbox w' = outbox w ∧ stdout w' = stdout w ∧
  calls w' = calls w ++ [CallRender employee_data] ∧
  (∀ f, is_Some (pdfs w !! f) → is_Some (pdfs w' !! f)) ∧
  (∀ f, r = Ok f →
        is_Some (pdfs w' !! f) ∧
        ∃ id, employee_data !! "Employee ID" = Some id ∧
              f = "payslips/" +:+ str_cell id +:+ ".pdf").
Proof.
  unfold create_payslip, log_call, mkdir, now, save. munfold. simpl.
  repeat step_render; intros [= <- <-]; simpl; split_and!; try done.
  - intros f Hf. rewrite lookup_insert. by case_decide.
  - intros f [= <-]. rewrite lookup_insert_eq. split; [by eexists|].
    eexists. split; [|done]. by apply getitem_Ok.
Qed.

Lemma renderable_spec (employee_data : dict num) :
  renderable employee_data = true ↔
  is_Some (employee_data !! "Name") ∧ is_Some (employee_data !! "Email") ∧
  ∀ c, c ∈ amount_columns →
       ∃ v text, employee_data !! c = Some v ∧ format_2f v = Ok text.
Proof.
  unfold renderable. rewrite !andb_true_iff, !bool_decide_eq_true, forallb_forall.
  split.
  - intros [[Hname Hemail] Hamounts].
    split_and!; try done. intros c Hc%list_elem_of_In%Hamounts.
    destruct (employee_data !! c) as [v|]; [|done].
    destruct (format_2f v) as [text|] eqn:Hv; [|done]. eauto.
  - intros (Hname & Hemail & Hamounts).
    split_and!; try done. intros c Hc%list_elem_of_In%Hamounts.
    destruct Hc as (v & text & -> & ->). done.
Qed.

Lemma create_payslip_ok (employee_data : dict num) id w :
  renderable employee_data = true →
  employee_data !! "Employee ID" = Some id →
  "payslips/" +:+ str_cell id +:+ ".pdf" ∉ locked w →
  ∃ page,
    create_payslip employee_data w =
      (Ok ("payslips/" +:+ str_cell id +:+ ".pdf"),
       {| disk := disk w; today := today w; dirs := {["payslips"]} ∪ dirs w;
          pdfs := <["payslips/" +:+ str_cell id +:+ ".pdf" := page]> (pdfs w);
          locked := locked w; refused := refused w; outbox := outbox w;
          stdout := stdout w; calls := calls w ++ [CallRender employee_data] |}) ∧
    DrawString 20 260 ("Date: " +:+ today w) ∈ page ∧
    DrawString 20 220 ("Employee ID: " +:+ str_cell id) ∈ page ∧
    ∀ net text, employee_data !! "Net Salary" = Some net → format_2f net = Ok text →
                DrawString 20 120 ("📊 Net Salary: $" +:+ text) ∈ page.
Proof.
  intros Hok Hid Hfree. apply renderable_spec in Hok as ([name Hname] & [email Hemail] & Hamounts).
  destruct (Hamounts "Basic Salary") as (basic & basic_text & Hb & Hbt); [in_list|].
  destruct (Hamounts "Allowances") as (allowances & allowances_text & Ha & Hat); [in_list|].
  destruct (Hamounts "Deductions") as (deductions & deductions_text & Hd & Hdt); [in_list|].
  destruct (Hamounts "Net Salary") as (net & net_text & Hn & Hnt); [in_list|].
  eexists. split; [|split; [|split]].
  - unfold create_payslip, log_call, mkdir, now, save. munfold. simpl.
    rewrite (getitem_Some _ _ _ Hid), (getitem_Some _ _ _ Hname), (getitem_Some _ _ _ Hemail),
      (getitem_Some _ _ _ Hb), (getitem_Some _ _ _ Ha), (getitem_Some _ _ _ Hd),
      (getitem_Some _ _ _ Hn), Hbt, Hat, Hdt, Hnt. simpl.
    destruct (decide _) as [Hin|_]; [done|]. reflexivity.
  - in_list.
  - in_list.
  - intros net' text Hn' Hnt'. rewrite Hn in Hn'. injection Hn' as <-.
    rewrite Hnt in Hnt'. injection Hnt' as <-. in_list.
Qed.


(** ** The thread pool *)

Lemma as_completed_fmap {A B} (f : A → B) picks (l : list A) n :
  as_completed picks (f <$> l) n = f <$> as_completed picks l n.
Proof.
  revert picks l. induction n as [|n IH]; intros picks l; simpl; [done|].
  rewrite length_fmap, list_lookup_fmap.
  destruct (l !! _) as [t|] eqn:Ht; simpl; [|done].
  f_equal. by rewrite <- IH, list_fmap_delete.
Qed.

Lemma as_completed_Permutation {A} picks (l : list A) n :
  n = length l → as_completed picks l n ≡ₚ l.
Proof.
  revert picks l.
  induction n as [|n IH]; intros picks l Hn; simpl.
  - by destruct l.
  - assert (hd 0 picks `mod` length l < length l) as Hk.
    { apply Nat.mod_upper_bound. lia. }
    destruct (lookup_lt_is_Some_2 l _ Hk) as [t Ht]. rewrite Ht.
    rewrite IH.
    + symmetry. by apply delete_Permutation.
    + rewrite length_delete by eauto. lia.
Qed.

Lemma length_as_completed {A} picks (l : list A) n :
  n = length l → length (as_completed picks l n) = length l.
Proof. intros Hn. by rewrite as_completed_Permutation. Qed.

Lemma mapM_result_fmap {A B} (f : A → result B) (g : A → B) (l : list A) :
  (∀ x, x ∈ l → f x = Ok (g x)) → mapM f l = Ok (g <$> l).
Proof.
  induction l as [|x l IH]; intros Hf; simpl; [done|].
  rewrite Hf by left. munfold. rewrite IH; [done|].
  intros y Hy. apply Hf. by right.
Qed.

Lemma run_all_cons {A} (t : M num A) ts w :
  run_all (t :: ts) w =
    match run_all ts (t w).2 with
    | (Ok rs, w') => (Ok ((t w).1 :: rs), w')
    | (Raise e, w') => (Raise e, w')
    end.
Proof.
  simpl. munfold. unfold run_future. destruct (t w) as [r w1]. simpl.
  destruct (run_all ts w1) as [[rs|e] w']; done.
Qed.

Lemma run_all_render (ds : list (dict num)) w :
  ∃ futures w',
    run_all (create_payslip <$> ds) w = (Ok futures, w') ∧
    disk w' = disk w ∧ locked w' = locked w ∧ refused w' = refused w ∧
    outbox w' = outbox w ∧ stdout w' = stdout w ∧
    calls w' = calls w ++ (CallRender <$> ds) ∧
    (∀ f, is_Some (pdfs w !! f) → is_Some (pdfs w' !! f)) ∧
    Forall2 (λ d r, ∀ f, r = Ok f →
               is_Some (pdfs w' !! f) ∧
               ∃ id, d !! "Employee ID" = Some id ∧
                     f = "payslips/" +:+ str_cell id +:+ ".pdf") ds futures.
Proof.
  revert w. induction ds as [|d ds IH]; intros w.
  - exists [], w. simpl. rewrite app_nil_r. by split_and!.
  - rewrite fmap_cons, run_all_cons.
    destruct (create_payslip d w) as [r w1] eqn:Hd. simpl.
    apply create_payslip_frame in Hd as (Hdisk & Hlock & Href & Hout & Hstd & Hcalls & Hmono & Hfile).
    destruct (IH w1) as (futures & w' & -> & Hdisk' & Hlock' & Href' & Hout' & Hstd' & Hcalls' & Hmono' & Hall).
    exists (r :: futures), w'. split_and!; try congruence.
    + rewrite Hcalls', Hcalls. by rewrite <- app_assoc.
    + intros f Hf. by apply Hmono', Hmono.
    + constructor; [|done]. intros f Hf. destruct (Hfile f Hf) as [Hsome Hid].
      split; [by apply Hmono'|done].
Qed.

Lemma collect_files_spec (futures : list (result string)) generated_files w :
  collect_files futures generated_files w =
    (Ok (generated_files ++ returned futures),
     {| disk := disk w; today := today w; dirs := dirs w; pdfs := pdfs w;
        locked := locked w; refused := refused w; outbox := outbox w;
        stdout := stdout w ++
                  ((λ e, "Error generating payslip: " +:+ exn_str e) <$> raised futures);
        calls := calls w |}).
Proof.
  revert generated_files w.
  induction futures as [|[filename|e] futures IH]; intros generated_files w; simpl.
  - rewrite !app_nil_r. by destruct w.
  - rewrite IH. unfold returned. simpl. by rewrite <- app_assoc.
  - munfold. unfold print. simpl. rewrite IH. simpl. unfold raised. simpl.
    by rewrite <- app_assoc.
Qed.

Lemma length_omap_le {A B} (f : A → option B) (l : list A) :
  length (omap f l) ≤ length l.
Proof. induction l as [|x l IH]; csimpl; [lia|]. destruct (f x); simpl; lia. Qed.

Lemma length_returned_raised {A} (futures : list (result A)) :
  length (returned futures) + length (raised futures) = length futures.
Proof.
  unfold returned, raised. induction futures as [|[a|e] futures IH]; csimpl; lia.
Qed.


(** ** The loader never raises *)

Lemma load_employee_data_total file_path w :
  ∃ o w1, load_employee_data file_path w = (Ok o, w1).
Proof.
  rewrite load_employee_data_cases. unfold load_failure.
  repeat case_match; eauto.
Qed.

Lemma loaded_has_required_columns file_path w df' w' :
  load_employee_data file_path w = (Ok (Some df'), w') →
  has_required_columns df' = true.
Proof.
  intros (_ & df & _ & Hcols & Hnet & _)%load_employee_data_Some.
  apply calculate_net_salary_Ok in Hnet as (? & ? & ? & ? & net & _ & _ & _ & _ & _ & ->).
  apply has_required_columns_spec. intros c Hc. simpl.
  apply lookup_insert_is_Some'. right.
  by apply (proj1 (has_required_columns_spec df) Hcols).
Qed.

Lemma render_task_employee_data row :
  is_Some (row !! "Employee ID") →
  render_task row = Ok (create_payslip (employee_data_of row)).
Proof.
  intros [id Hid]. unfold render_task, employee_data_of.
  rewrite (getitem_Some _ _ _ Hid), Hid. done.
Qed.

(** ** Claims about rendering *)

(** After a load that succeeded, the batch is the pool run over the
    records of the rows followed by the collection loop. *)
Lemma generate_payslips_batch_Some file_path picks w df w1 :
  load_employee_data file_path w = (Ok (Some df), w1) →
  ∃ records,
    records ≡ₚ employee_data_of <$> iterrows df ∧
    generate_payslips_batch file_path picks w =
      (futures ← run_all (create_payslip <$> records); collect_files futures []) w1.
Proof.
  intros Hload.
  pose proof (loaded_has_required_columns _ _ _ _ Hload) as Hcols.
  exists (as_completed picks (employee_data_of <$> iterrows df) (length (iterrows df))).
  split; [apply as_completed_Permutation; by rewrite length_fmap|].
  unfold generate_payslips_batch. munfold. rewrite Hload.
  rewrite (mapM_result_fmap render_task (create_payslip ∘ employee_data_of)).
  2: { intros row [k Hk]%list_elem_of_lookup. apply iterrows_lookup_inv in Hk as [_ ->].
       apply render_task_employee_data, row_at_required; [done|in_list]. }
  unfold thread_pool. by rewrite list_fmap_compose, as_completed_fmap, !length_fmap.
Qed.

(** C5. [generate_payslips_batch] never raises.  When the roster loads,
    every record is handed to the renderer exactly once, a render that
    raises costs one printed line and leaves no entry in the result, and
    the result holds the files of the renders that returned: at most one
    per record. *)
Theorem generate_payslips_batch_never_raises file_path picks w :
  ∃ generated_files w',
    generate_payslips_batch file_path picks w = (Ok generated_files, w') ∧
    (∀ w1, load_employee_data file_path w = (Ok None, w1) →
           generated_files = [] ∧ w' = w1) ∧
    (∀ df w1, load_employee_data file_path w = (Ok (Some df), w1) →
       ∃ records futures,
         records ≡ₚ employee_data_of <$> iterrows df ∧
         calls w' = calls w1 ++ (CallRender <$> records) ∧
         Forall2 (λ d r, ∀ f, r = Ok f →
                    is_Some (pdfs w' !! f) ∧
                    ∃ id, d !! "Employee ID" = Some id ∧
                          f = "payslips/" +:+ str_cell id +:+ ".pdf") records futures ∧
         generated_files = returned futures ∧
         stdout w' = stdout w1 ++
           ((λ e, "Error generating payslip: " +:+ exn_str e) <$> raised futures) ∧
         length generated_files + length (raised futures) = nrows df ∧
         length generated_files ≤ nrows df).
Proof.
  destruct (load_employee_data_total file_path w) as ([df|] & w1 & Hload).
  2: { exists [], w1. unfold generate_payslips_batch. munfold. rewrite Hload.
       split; [done|]. split; [by intros ? [= <-]|]. by intros ? ?. }
  destruct (generate_payslips_batch_Some _ picks _ _ _ Hload) as (records & Hperm & ->).
  munfold.
  destruct (run_all_render records w1)
    as (futures & w2 & -> & _ & _ & _ & _ & Hstd & Hcalls & _ & Hall).
  rewrite collect_files_spec. simpl.
  eexists _, _. split; [done|]. split; [intros ? Hnone; by rewrite Hload in Hnone|].
  intros ? ? Hsome. rewrite Hload in Hsome. injection Hsome as <- <-.
  exists records, futures. simpl.
  assert (length (returned futures) + length (raised futures) = nrows df) as Hlen.
  { by rewrite length_returned_raised, <- (Forall2_length _ _ _ Hall), Hperm,
      length_fmap, length_iterrows. }
  split_and!; try done; try lia. by rewrite Hstd.
Qed.

(** C8. The file path of a payslip is payslips/<str(Employee ID)>.pdf and
    nothing else of the record or of the world enters it: a record that
    can be rendered is rendered to that path, and rendering it again, on
    another day, returns the same path and replaces the first document
    there without adding a file. *)
Theorem payslip_path_deterministic (employee_data : dict num) id w1 :
  renderable employee_data = true →
  employee_data !! "Employee ID" = Some id →
  "payslips/" +:+ str_cell id +:+ ".pdf" ∉ locked w1 →
  ∃ page1 w1',
    create_payslip employee_data w1 = (Ok ("payslips/" +:+ str_cell id +:+ ".pdf"), w1') ∧
    pdfs w1' !! ("payslips/" +:+ str_cell id +:+ ".pdf") = Some page1 ∧
    DrawString 20 260 ("Date: " +:+ today w1) ∈ page1 ∧
    ∀ w2, pdfs w2 = pdfs w1' →
          "payslips/" +:+ str_cell id +:+ ".pdf" ∉ locked w2 →
          ∃ page2 w2',
            create_payslip employee_data w2 =
              (Ok ("payslips/" +:+ str_cell id +:+ ".pdf"), w2') ∧
            pdfs w2' = <["payslips/" +:+ str_cell id +:+ ".pdf" := page2]> (pdfs w1') ∧
            DrawString 20 260 ("Date: " +:+ today w2) ∈ page2 ∧
            dom (pdfs w2') = dom (pdfs w1').
Proof.
  intros Hok Hid Hfree1.
  destruct (create_payslip_ok _ _ w1 Hok Hid Hfree1) as (page1 & Hrun1 & Hdate1 & _).
  eexists page1, _. split; [exact Hrun1|]. cbn [pdfs]. rewrite lookup_insert_eq.
  split; [done|]. split; [exact Hdate1|].
  intros w2 Hpdfs Hfree2.
  destruct (create_payslip_ok _ _ w2 Hok Hid Hfree2) as (page2 & Hrun2 & Hdate2 & _).
  eexists page2, _. split; [exact Hrun2|]. cbn [pdfs]. rewrite Hpdfs.
  split; [done|]. split; [exact Hdate2|].
  by rewrite insert_insert_eq, !dom_insert_L.
Qed.


(** ** Sending one payslip *)

Lemma send_of_spec cfg (pair : string * dict num) w :
  ∃ line,
    send_of cfg pair w =
      (Ok (from_option (λ _, true) false (delivery (pdfs w) (refused w) cfg pair)),
       {| disk := disk w; today := today w; dirs := dirs w; pdfs := pdfs w;
          locked := locked w; refused := refused w;
          outbox := outbox w ++ option_list (delivery (pdfs w) (refused w) cfg pair);
          stdout := stdout w ++ [line];
          calls := calls w ++ [call_of pair] |}).
Proof.
  unfold send_of, send_email, delivery, call_of, log_call, read_file, sendmail, print.
  munfold. cbn [pdfs refused outbox stdout calls disk today dirs locked].
  destruct (pdfs w !! pair.1) as [page|].
  - destruct (to_email_of pair) as [|x|to].
    + eexists. cbn. rewrite (app_nil_r (outbox w)). reflexivity.
    + eexists. cbn. rewrite (app_nil_r (outbox w)). reflexivity.
    + cbn. destruct (decide (to ∈ refused w)).
      * eexists. cbn. rewrite (app_nil_r (outbox w)). reflexivity.
      * eexists. cbn. reflexivity.
  - eexists. cbn. rewrite (app_nil_r (outbox w)). reflexivity.
Qed.

Lemma send_email_never_raises (to_email : cell num) subject body attachment_path cfg w :
  ∃ sent w', send_email to_email subject body attachment_path cfg w = (Ok sent, w').
Proof.
  unfold send_email, log_call, read_file, sendmail, print. munfold.
  cbn [pdfs refused outbox stdout calls disk today dirs locked].
  destruct (pdfs w !! attachment_path) as [page|]; [|by eexists _, _].
  destruct to_email as [|x|to]; [by eexists _, _..|].
  cbn. destruct (decide (to ∈ refused w)); by eexists _, _.
Qed.

Lemma run_all_send cfg (ds : list (string * dict num)) w :
  ∃ lines,
    length lines = length ds ∧
    run_all (send_of cfg <$> ds) w =
      (Ok ((λ p, Ok (from_option (λ _, true) false
                       (delivery (pdfs w) (refused w) cfg p))) <$> ds),
       {| disk := disk w; today := today w; dirs := dirs w; pdfs := pdfs w;
          locked := locked w; refused := refused w;
          outbox := outbox w ++ omap (delivery (pdfs w) (refused w) cfg) ds;
          stdout := stdout w ++ lines;
          calls := calls w ++ (call_of <$> ds) |}).
Proof.
  revert w. induction ds as [|d ds IH]; intros w.
  - exists []. split; [done|]. simpl. rewrite !app_nil_r. by destruct w.
  - rewrite fmap_cons, run_all_cons.
    destruct (send_of_spec cfg d w) as [line ->]. cbn [fst snd].
    destruct (IH {| disk := disk w; today := today w; dirs := dirs w; pdfs := pdfs w;
          locked := locked w; refused := refused w;
          outbox := outbox w ++ option_list (delivery (pdfs w) (refused w) cfg d);
          stdout := stdout w ++ [line];
          calls := calls w ++ [call_of d] |}) as (lines & Hlen & ->).
    exists (line :: lines). split; [simpl; lia|].
    cbn [pdfs refused outbox stdout calls disk today dirs locked].
    rewrite <- !app_assoc. csimpl. by destruct (delivery _ _ _ d).
Qed.

Lemma count_sent_spec {D} (f : D → option message) (ds : list D) sent_count w :
  count_sent ((λ p, Ok (from_option (λ _, true) false (f p))) <$> ds) sent_count w =
    (Ok (sent_count + length (omap f ds)), w).
Proof.
  revert sent_count. induction ds as [|d ds IH]; intros sent_count; csimpl.
  - by rewrite Nat.add_0_r.
  - destruct (f d); csimpl; rewrite IH; do 2 f_equal; lia.
Qed.

Lemma send_task_send_of cfg (pair : string * dict num) :
  is_Some (pair.2 !! "Name") → is_Some (pair.2 !! "Email") →
  send_task cfg pair = Ok (send_of cfg pair).
Proof.
  destruct pair as [file_path row]. intros [name Hname] [email Hemail].
  unfold send_task, send_of, to_email_of. simpl in *.
  rewrite (getitem_Some _ _ _ Hname), (getitem_Some _ _ _ Hemail), Hname, Hemail. done.
Qed.

(** [send_payslips], in full: the pairs of the zip are attempted once
    each, in the order the scheduler picks. *)
Lemma send_payslips_spec generated_files df cfg picks w :
  is_Some (columns df !! "Name") → is_Some (columns df !! "Email") →
  ∃ attempts lines,
    attempts ≡ₚ zip generated_files (iterrows df) ∧
    length lines = length attempts ∧
    send_payslips generated_files df cfg picks w =
      (Ok (length (omap (delivery (pdfs w) (refused w) cfg) attempts)),
       {| disk := disk w; today := today w; dirs := dirs w; pdfs := pdfs w;
          locked := locked w; refused := refused w;
          outbox := outbox w ++ omap (delivery (pdfs w) (refused w) cfg) attempts;
          stdout := stdout w ++ lines;
          calls := calls w ++ (call_of <$> attempts) |}).
Proof.
  intros [names Hnames] [emails Hemails].
  set (pairs := zip generated_files (iterrows df)).
  exists (as_completed picks pairs (length pairs)).
  destruct (run_all_send cfg (as_completed picks pairs (length pairs)) w) as (lines & Hlen & Hrun).
  exists lines. split; [by apply as_completed_Permutation|]. split; [done|].
  unfold send_payslips. munfold. fold pairs.
  rewrite (mapM_result_fmap (send_task cfg) (send_of cfg)).
  2: { intros [file_path row] Hpair. apply elem_of_zip_r in Hpair.
       apply list_elem_of_lookup in Hpair as [k Hk].
       apply iterrows_lookup_inv in Hk as [_ ->].
       apply send_task_send_of; simpl; rewrite row_at_lookup.
       - rewrite Hnames. by eexists.
       - rewrite Hemails. by eexists. }
  unfold thread_pool. rewrite length_fmap, as_completed_fmap, Hrun.
  by rewrite count_sent_spec.
Qed.


(** ** Claims about sending *)

(** C2. Documents and records are paired by position: whatever the
    list of generated files holds, its i-th file is what [send_email]
    is called with for the e-mail address of the i-th row, and when that
    file exists and the address is accepted, the message delivered to the
    address carries that file. *)
Theorem send_payslips_pairs_by_position generated_files df cfg picks w i file_path email :
  is_Some (columns df !! "Name") →
  generated_files !! i = Some file_path →
  i < nrows df →
  row_at df i !! "Email" = Some email →
  ∃ sent_count w' attempts,
    send_payslips generated_files df cfg picks w = (Ok sent_count, w') ∧
    calls w' = calls w ++ attempts ∧
    CallSend email file_path ∈ attempts ∧
    ∀ page to,
      pdfs w !! file_path = Some page → email = Str to → to ∉ refused w →
      ∃ m, m ∈ outbox w' ∧ msg_to m = to ∧ msg_attachment m = page ∧
           msg_attachment_name m = basename file_path.
Proof.
  intros Hname Hfile Hi Hemail.
  assert (is_Some (columns df !! "Email")) as Hcol.
  { rewrite row_at_lookup in Hemail. destruct (columns df !! "Email"); [by eexists|done]. }
  destruct (send_payslips_spec generated_files df cfg picks w Hname Hcol)
    as (attempts & lines & Hperm & _ & Hrun).
  assert ((file_path, row_at df i) ∈ attempts) as Hin.
  { rewrite Hperm. apply list_elem_of_lookup. exists i.
    apply lookup_zip_with_Some. exists file_path, (row_at df i).
    split; [done|]. split; [done|]. by apply iterrows_lookup. }
  assert (to_email_of (file_path, row_at df i) = email) as Hto.
  { unfold to_email_of. simpl. by rewrite Hemail. }
  eexists _, _, (call_of <$> attempts). split; [exact Hrun|]. cbn [calls outbox].
  split; [done|]. split.
  - apply list_elem_of_fmap. exists (file_path, row_at df i). split; [|done].
    unfold call_of. by rewrite Hto.
  - intros page to Hpage -> Hok. eexists. split.
    + apply elem_of_app. right. apply list_elem_of_omap.
      exists (file_path, row_at df i). split; [done|].
      unfold delivery. rewrite Hto. cbn [fst]. rewrite Hpage.
      destruct (decide (to ∈ refused w)); [done|]. reflexivity.
    + done.
Qed.

(** C6. [send_payslips] returns the number of messages the server
    accepted, which is at most the number of pairs; every pair is
    attempted exactly once, whether or not other attempts fail, and a
    failed [send_email] is a returned [False], never an exception. *)
Theorem send_payslips_counts_successes generated_files df cfg picks w :
  is_Some (columns df !! "Name") → is_Some (columns df !! "Email") →
  ∃ sent_count w' attempts delivered,
    send_payslips generated_files df cfg picks w = (Ok sent_count, w') ∧
    calls w' = calls w ++ attempts ∧
    attempts ≡ₚ call_of <$> zip generated_files (iterrows df) ∧
    outbox w' = outbox w ++ delivered ∧
    sent_count = length delivered ∧
    sent_count ≤ length attempts ∧
    ∀ (to_email : cell num) subject body attachment_path w0,
      ∃ sent w1, send_email to_email subject body attachment_path cfg w0 = (Ok sent, w1).
Proof.
  intros Hname Hemail.
  destruct (send_payslips_spec generated_files df cfg picks w Hname Hemail)
    as (attempts & lines & Hperm & _ & Hrun).
  eexists _, _, (call_of <$> attempts), _. split; [exact Hrun|]. cbn [calls outbox].
  split; [done|]. split; [by rewrite Hperm|]. split; [done|]. split; [done|].
  split; [|intros; apply send_email_never_raises].
  rewrite length_fmap. apply length_omap_le.
Qed.

(** C10. [send_payslips] makes min(number of files, number of rows)
    attempts and no more: with fewer files than rows, only the first rows
    are paired, the rest get no call of [send_email] and no printed line,
    and nothing is raised. *)
Theorem send_payslips_attempts_shorter generated_files df cfg picks w :
  is_Some (columns df !! "Name") → is_Some (columns df !! "Email") →
  ∃ sent_count w' attempts lines,
    send_payslips generated_files df cfg picks w = (Ok sent_count, w') ∧
    calls w' = calls w ++ attempts ∧
    stdout w' = stdout w ++ lines ∧
    length attempts = length generated_files `min` nrows df ∧
    length lines = length generated_files `min` nrows df ∧
    attempts ≡ₚ
      call_of <$> zip generated_files (take (length generated_files) (iterrows df)) ∧
    sent_count ≤ length generated_files.
Proof.
  intros Hname Hemail.
  destruct (send_payslips_spec generated_files df cfg picks w Hname Hemail)
    as (attempts & lines & Hperm & Hlen & Hrun).
  assert (length attempts = length generated_files `min` nrows df) as Hmin.
  { by rewrite Hperm, length_zip_with, length_iterrows. }
  eexists _, _, (call_of <$> attempts), lines. split; [exact Hrun|]. cbn [calls stdout].
  split; [done|]. split; [done|]. rewrite length_fmap.
  split; [done|]. split; [congruence|]. split; [by rewrite zip_with_take_r, Hperm|].
  transitivity (length attempts); [apply length_omap_le|lia].
Qed.

(** ** The driver *)

(** C7. When the loader fails, [main] stops there: it returns after the
    loader's message, and neither [create_payslip] nor [send_email] has been
    called, no file has been written and no mail has been sent. *)
Theorem main_stops_when_load_fails picks_render picks_send w :
  (load_employee_data excel_file w).1 = Ok None →
  ∃ e w',
    main picks_render picks_send w = (Ok tt, w') ∧
    stdout w' = stdout w ++ ["Generating payslips...";
                             "Error loading employee data: " +:+ exn_str e] ∧
    calls w' = calls w ∧ pdfs w' = pdfs w ∧ dirs w' = dirs w ∧ outbox w' = outbox w.
Proof.
  intros Hfail. rewrite load_employee_data_cases in Hfail.
  unfold main. munfold. unfold print at 1. rewrite load_employee_data_cases.
  cbn [disk]. unfold load_failure in *.
  destruct (disk w !! excel_file) as [df|].
  2: { eexists (OSError _), _. split; [reflexivity|]. cbn.
       rewrite <- app_assoc. by split_and!. }
  destruct (has_required_columns df).
  2: { eexists (ValueError _), _. split; [reflexivity|]. cbn.
       rewrite <- app_assoc. by split_and!. }
  destruct (calculate_net_salary df) as [df'|e].
  2: { exists e. eexists. split; [reflexivity|]. cbn.
       rewrite <- app_assoc. by split_and!. }
  destruct (validate (iterrows df')) as [[]|e]; [done|].
  exists e. eexists. split; [reflexivity|]. cbn. rewrite <- app_assoc. by split_and!.
Qed.

(** When the roster loads, [main] runs to its summary line, which counts
    the messages the server accepted in this run against the files the
    rendering stage returned, not the rows. *)
Lemma main_summary picks_render picks_send w df w1 :
  load_employee_data excel_file (print "Generating payslips..." w).2 = (Ok (Some df), w1) →
  ∃ generated_files delivered w',
    (generate_payslips_batch excel_file picks_render w1).1 = Ok generated_files ∧
    main picks_render picks_send w = (Ok tt, w') ∧
    outbox w' = outbox w ++ delivered ∧
    last (stdout w') =
      Some ("Successfully sent " +:+ pretty (length delivered) +:+ " emails out of "
            +:+ pretty (length generated_files)) ∧
    length delivered ≤ length generated_files ∧
    length generated_files ≤ nrows df.
Proof.
  intros Hload.
  pose proof (loaded_has_required_columns _ _ _ _ Hload) as Hcols.
  pose proof (proj1 (load_employee_data_Some _ _ _ _ Hload)) as Hw1.
  assert (load_employee_data excel_file w1 = (Ok (Some df), w1)) as Hagain.
  { pose proof Hload as Hagain.
    by rewrite <- (proj1 (load_employee_data_Some _ _ _ _ Hload)) in Hagain. }
  destruct (generate_payslips_batch_Some _ picks_render _ _ _ Hagain)
    as (records & Hrecords & Hbatch).
  destruct (run_all_render records w1)
    as (futures & w2' & Hpool & _ & _ & _ & Houtbox & _ & _ & _ & Hall).
  munfold. rewrite Hpool, collect_files_spec in Hbatch.
  match type of Hbatch with _ = (Ok ?fs, ?w) => set (generated_files := fs) in *; set (w2 := w) in * end.
  rename Hbatch into Hgen.
  assert (length generated_files ≤ nrows df) as Hle.
  { pose proof (length_returned_raised futures) as Hsum.
    rewrite <- (Forall2_length _ _ _ Hall), Hrecords, length_fmap, length_iterrows in Hsum.
    unfold generated_files. simpl. lia. }
  destruct (send_payslips_spec generated_files df main_smtp_config picks_send
              (print (nl +:+ "Sending emails...") w2).2)
    as (attempts & lines & Hperm & _ & Hsend).
  { apply (proj1 (has_required_columns_spec df) Hcols). in_list. }
  { apply (proj1 (has_required_columns_spec df) Hcols). in_list. }
  eexists generated_files, _, _. split; [by rewrite Hgen|].
  split.
  { assert (∀ line w0, print line w0 = (Ok tt, (print line w0).2)) as Hprint by done.
    unfold main. munfold.
    rewrite (Hprint "Generating payslips..." w), Hload, Hgen, (Hprint _ w2), Hsend.
    reflexivity. }
  cbn [outbox stdout print snd]. split.
  { unfold w2. cbn [outbox]. by rewrite Houtbox, Hw1. }
  split; [by rewrite last_snoc|]. split; [|done].
  transitivity (length attempts); [apply length_omap_le|].
  rewrite Hperm, length_zip_with. apply Nat.le_min_l.
Qed.


(** * Further properties of the code *)

(** ** The loader *)

Lemma load_depends_on_disk file_path w1 w2 :
  disk w1 = disk w2 →
  (load_employee_data file_path w1).1 = (load_employee_data file_path w2).1.
Proof.
  intros Hdisk. rewrite !load_employee_data_cases, Hdisk. unfold load_failure.
  destruct (disk w2 !! file_path) as [df|]; [|done].
  destruct (has_required_columns df); [|done].
  destruct (calculate_net_salary df) as [df'|]; [|done].
  by destruct (validate (iterrows df')) as [[]|].
Qed.

(** X1. [load_employee_data] never lets an exception out.  A load that
    succeeds prints nothing and changes nothing; a load that fails prints
    one line and changes nothing else; either way loading the same path
    again gives the same answer. *)
Theorem load_employee_data_effect file_path w :
  ∃ o w',
    load_employee_data file_path w = (Ok o, w') ∧
    (is_Some o → w' = w) ∧
    (o = None →
       ∃ e, stdout w' = stdout w ++ ["Error loading employee data: " +:+ exn_str e]) ∧
    disk w' = disk w ∧ pdfs w' = pdfs w ∧ dirs w' = dirs w ∧
    outbox w' = outbox w ∧ calls w' = calls w ∧
    (load_employee_data file_path w').1 = Ok o.
Proof.
  destruct (load_employee_data_total file_path w) as (o & w' & Hload).
  exists o, w'. split; [done|].
  assert (disk w' = disk w ∧ pdfs w' = pdfs w ∧ dirs w' = dirs w ∧
          outbox w' = outbox w ∧ calls w' = calls w ∧
          (is_Some o → w' = w) ∧
          (o = None →
           ∃ e, stdout w' = stdout w ++ ["Error loading employee data: " +:+ exn_str e]))
    as (Hdisk & Hpdfs & Hdirs & Hout & Hcalls & Hsome & Hnone).
  { rewrite load_employee_data_cases in Hload. unfold load_failure in Hload.
    destruct (disk w !! file_path) as [df|].
    2: { injection Hload as <- <-. split_and!; try done; try (by intros [? ?]).
         intros _. by eexists (OSError _). }
    destruct (has_required_columns df).
    2: { injection Hload as <- <-. split_and!; try done; try (by intros [? ?]).
         intros _. by eexists (ValueError _). }
    destruct (calculate_net_salary df) as [df'|e].
    2: { injection Hload as <- <-. split_and!; try done; try (by intros [? ?]).
         intros _. by exists e. }
    destruct (validate (iterrows df')) as [[]|e].
    - injection Hload as <- <-. by split_and!.
    - injection Hload as <- <-. split_and!; try done; try (by intros [? ?]).
      intros _. by exists e. }
  split_and!; try done.
  rewrite (load_depends_on_disk file_path w' w Hdisk). by rewrite Hload.
Qed.

Lemma validate_passes rows :
  (∀ row, row ∈ rows →
     ∃ id email, row !! "Employee ID" = Some id ∧ row !! "Email" = Some email ∧
                 isna id = false ∧ isna email = false) →
  validate rows = Ok tt.
Proof.
  induction rows as [|row rows IH]; intros Hrows; [done|].
  destruct (Hrows row) as (id & email & Hid & Hemail & Hna & Hna'); [by left|].
  simpl. rewrite (getitem_Some _ _ _ Hid), (getitem_Some _ _ _ Hemail). munfold.
  rewrite Hna, Hna'. apply IH. intros r Hr. apply Hrows. by right.
Qed.

Lemma mapM_result_Ok {A B} (f : A → result B) (l : list A) :
  (∀ x, x ∈ l → ∃ y, f x = Ok y) → ∃ ys, mapM f l = Ok ys.
Proof.
  induction l as [|x l IH]; intros Hf; simpl; [by eexists|].
  destruct (Hf x) as [y Hy]; [by left|].
  destruct IH as [ys Hys]; [intros z Hz; apply Hf; by right|].
  munfold. rewrite Hy, Hys. by eexists.
Qed.

Lemma clean_row_spec row :
  clean_row row = true →
  isna (default NaN (row !! "Employee ID")) = false ∧
  isna (default NaN (row !! "Email")) = false ∧
  ∀ c, c ∈ salary_columns → is_text (default NaN (row !! c)) = false.
Proof.
  unfold clean_row. rewrite !andb_true_iff, !negb_true_iff, forallb_forall.
  intros [[Hid Hemail] Hamounts]. split_and!; try done.
  intros c Hc%list_elem_of_In%Hamounts. by apply negb_true_iff.
Qed.

Lemma cell_add_numbers (a b : cell num) :
  is_text a = false → is_text b = false →
  ∃ c, cell_add a b = Ok c ∧ is_text c = false.
Proof. destruct a, b; intros; try done; by eexists. Qed.

Lemma cell_sub_never_text (a b c : cell num) :
  cell_sub a b = Ok c → is_text c = false.
Proof. destruct a, b; simpl; intros [= <-] || intros [=]; done. Qed.

Lemma cell_sub_numbers (a b : cell num) :
  is_text a = false → is_text b = false → ∃ c, cell_sub a b = Ok c.
Proof. destruct a, b; intros; try done; by eexists. Qed.

(** The net salary of a roster whose amounts are numbers or blanks can
    be computed. *)
Lemma calculate_net_salary_clean df :
  has_required_columns df = true →
  forallb clean_row (iterrows df) = true →
  ∃ df', calculate_net_salary df = Ok df'.
Proof.
  intros Hcols Hclean.
  assert (∀ i c, i < nrows df → c ∈ salary_columns →
            ∃ col, columns df !! c = Some col ∧ is_text (cell_at col i) = false) as Hcell.
  { intros i c Hi Hc.
    destruct (proj1 (has_required_columns_spec df) Hcols c) as [col Hcol].
    { apply list_elem_of_In in Hc. simpl in Hc.
      destruct Hc as [<-|[<-|[<-|[]]]]; in_list. }
    exists col. split; [done|].
    rewrite forallb_forall in Hclean.
    assert (clean_row (row_at df i) = true) as Hrow.
    { apply Hclean, list_elem_of_In, list_elem_of_lookup. exists i. by apply iterrows_lookup. }
    apply clean_row_spec in Hrow as (_ & _ & Hamounts).
    specialize (Hamounts c Hc). by rewrite row_at_lookup, Hcol in Hamounts. }
  destruct (proj1 (has_required_columns_spec df) Hcols "Basic Salary") as [basic Hb]; [in_list|].
  destruct (proj1 (has_required_columns_spec df) Hcols "Allowances") as [allowances Ha]; [in_list|].
  destruct (proj1 (has_required_columns_spec df) Hcols "Deductions") as [deductions Hd]; [in_list|].
  assert (∀ i, i < nrows df → is_text (cell_at basic i) = false ∧
            is_text (cell_at allowances i) = false ∧
            is_text (cell_at deductions i) = false) as Hrows.
  { intros i Hi. split_and!.
    - destruct (Hcell i "Basic Salary" Hi) as (col & Hcol & Htext); [in_list|]. congruence.
    - destruct (Hcell i "Allowances" Hi) as (col & Hcol & Htext); [in_list|]. congruence.
    - destruct (Hcell i "Deductions" Hi) as (col & Hcol & Htext); [in_list|]. congruence. }
  unfold calculate_net_salary.
  rewrite (getitem_Some _ _ _ Hb), (getitem_Some _ _ _ Ha), (getitem_Some _ _ _ Hd). munfold.
  destruct (mapM_result_Ok (λ i, cell_add (cell_at basic i) (cell_at allowances i))
              (seq 0 (nrows df))) as [gross Hgross].
  { intros i [_ Hi]%elem_of_seq. destruct (Hrows i) as (Hbi & Hai & _); [lia|].
    destruct (cell_add_numbers _ _ Hbi Hai) as (c & Hc & _). by exists c. }
  unfold series_op at 1. rewrite Hgross.
  destruct (mapM_result_Ok (λ i, cell_sub (cell_at gross i) (cell_at deductions i))
              (seq 0 (nrows df))) as [net Hnet].
  { intros i [_ Hi]%elem_of_seq. destruct (Hrows i) as (Hbi & Hai & Hdi); [lia|].
    destruct (cell_add_numbers _ _ Hbi Hai) as (c & Hc & Htext).
    assert (cell_at gross i = c) as ->.
    { pose proof (series_op_lookup cell_add _ _ _ _ i Hgross) as Hgi.
      rewrite Hc in Hgi. injection (Hgi ltac:(lia)) as <-. done. }
    apply cell_sub_numbers; done. }
  unfold series_op. rewrite Hnet. by eexists.
Qed.

Lemma load_clean_roster file_path w df :
  disk w !! file_path = Some df →
  has_required_columns df = true →
  forallb clean_row (iterrows df) = true →
  ∃ df', load_employee_data file_path w = (Ok (Some df'), w).
Proof.
  intros Hdisk Hcols Hclean.
  destruct (calculate_net_salary_clean df Hcols Hclean) as [df' Hnet].
  exists df'. rewrite load_employee_data_cases, Hdisk, Hcols, Hnet.
  apply calculate_net_salary_Ok in Hnet as (? & ? & ? & ? & net & _ & _ & _ & _ & _ & ->).
  rewrite validate_passes; [done|].
  intros row [i Hi]%list_elem_of_lookup. apply iterrows_lookup_inv in Hi as [Hi ->].
  simpl in Hi. rewrite !row_at_set_column_ne by done.
  rewrite forallb_forall in Hclean.
  assert (clean_row (row_at df i) = true) as Hrow.
  { apply Hclean, list_elem_of_In, list_elem_of_lookup. exists i. by apply iterrows_lookup. }
  apply clean_row_spec in Hrow as (Hid & Hemail & _).
  destruct (row_at_required df i "Employee ID" Hcols) as [id Hid']; [in_list|].
  destruct (row_at_required df i "Email" Hcols) as [email Hemail']; [in_list|].
  rewrite Hid' in Hid. rewrite Hemail' in Hemail. by exists id, email.
Qed.

(** X2. A roster with the six columns, an identifier and an e-mail
    address in every row and no text among the amounts loads: all its
    rows come back unchanged, with the Net Salary column added, and
    nothing is printed. *)
Theorem load_accepts_clean_roster file_path w df :
  disk w !! file_path = Some df →
  has_required_columns df = true →
  forallb clean_row (iterrows df) = true →
  ∃ df' net,
    load_employee_data file_path w = (Ok (Some df'), w) ∧
    columns df' = <["Net Salary" := net]> (columns df) ∧
    length net = nrows df ∧ nrows df' = nrows df ∧
    ∀ i c, c ≠ "Net Salary" → row_at df' i !! c = row_at df i !! c.
Proof.
  intros Hdisk Hcols Hclean.
  destruct (load_clean_roster file_path w df Hdisk Hcols Hclean) as [df' Hload].
  apply load_employee_data_Some in Hload as Hparts.
  destruct Hparts as (_ & df0 & Hdisk0 & _ & Hnet & _).
  rewrite Hdisk in Hdisk0. injection Hdisk0 as <-.
  apply calculate_net_salary_Ok in Hnet
    as (? & ? & deductions & gross & net & _ & _ & _ & _ & Hsub & ->).
  exists (set_column df "Net Salary" net), net. split_and!; try done.
  - apply mapM_result_lookup in Hsub as [Hlen _]. by rewrite Hlen, length_seq.
  - intros i c Hc. by apply row_at_set_column_ne.
Qed.

(** X3. The invariant of a loaded roster: every row has the seven fields
    the renderer reads, and neither its identifier nor its e-mail address
    is blank. *)
Theorem loaded_roster_invariant file_path w df' w' i :
  load_employee_data file_path w = (Ok (Some df'), w') →
  i < nrows df' →
  (∀ c, c ∈ "Net Salary" :: required_columns → is_Some (row_at df' i !! c)) ∧
  ∃ id email,
    row_at df' i !! "Employee ID" = Some id ∧ row_at df' i !! "Email" = Some email ∧
    id ≠ NaN ∧ email ≠ NaN.
Proof.
  intros Hload Hi. split; [|by eapply loaded_rows_complete].
  intros c [->|Hc]%elem_of_cons.
  - destruct (loaded_row_cells _ _ _ _ i Hload Hi)
      as (? & ? & ? & ? & ? & net & _ & -> & _). rewrite row_at_set_column_eq. by eexists.
  - apply row_at_required; [|done]. by eapply loaded_has_required_columns.
Qed.

(** X4. Blank amounts are not validated: a row of a loaded roster with a
    blank Basic Salary, Allowances or Deductions has a blank Net Salary,
    and its payslip prints the net salary as [$nan]. *)
Theorem blank_amount_gives_blank_net file_path w df' w' i c :
  load_employee_data file_path w = (Ok (Some df'), w') →
  i < nrows df' →
  c ∈ salary_columns →
  row_at df' i !! c = Some NaN →
  row_at df' i !! "Net Salary" = Some NaN ∧
  ∀ w2 id,
    row_at df' i !! "Employee ID" = Some id →
    renderable (employee_data_of (row_at df' i)) = true →
    "payslips/" +:+ str_cell id +:+ ".pdf" ∉ locked w2 →
    ∃ page w2',
      create_payslip (employee_data_of (row_at df' i)) w2 =
        (Ok ("payslips/" +:+ str_cell id +:+ ".pdf"), w2') ∧
      pdfs w2' !! ("payslips/" +:+ str_cell id +:+ ".pdf") = Some page ∧
      DrawString 20 120 "📊 Net Salary: $nan" ∈ page.
Proof.
  intros Hload Hi Hc Hblank.
  assert (row_at df' i !! "Net Salary" = Some NaN) as Hn.
  { destruct (loaded_row_cells _ _ _ _ i Hload Hi)
      as (df & basic & allowances & deductions & gross & net &
          _ & -> & Hb & Ha & Hd & Hgross & Hnet).
    rewrite row_at_set_column_eq. f_equal.
    apply list_elem_of_In in Hc. simpl in Hc.
    destruct Hc as [<-|[<-|[<-|[]]]];
      rewrite row_at_set_column_ne, row_at_lookup in Hblank by done.
    - rewrite Hb in Hblank. injection Hblank as Hblank. rewrite Hblank in Hgross.
      simpl in Hgross. injection Hgross as Hgross. rewrite <- Hgross in Hnet.
      simpl in Hnet. by injection Hnet as <-.
    - rewrite Ha in Hblank. injection Hblank as Hblank. rewrite Hblank in Hgross.
      assert (cell_at gross i = NaN) as Hg.
      { destruct (cell_at basic i); simpl in Hgross; by injection Hgross as <-. }
      rewrite Hg in Hnet. simpl in Hnet. by injection Hnet as <-.
    - rewrite Hd in Hblank. injection Hblank as Hblank. rewrite Hblank in Hnet.
      destruct (cell_at gross i); simpl in Hnet; by injection Hnet as <-. }
  split; [exact Hn|]. intros w2 id Hid Hok Hfree.
  assert (employee_data_of (row_at df' i) !! "Employee ID" = Some (Str (str_cell id))) as Hid'.
  { unfold employee_data_of. by rewrite lookup_insert_eq, Hid. }
  destruct (create_payslip_ok _ _ w2 Hok Hid' Hfree) as (page & Hrun & _ & _ & Hnet).
  exists page. eexists. split; [exact Hrun|]. cbn [pdfs str_cell].
  rewrite lookup_insert_eq. split; [done|].
  apply (Hnet NaN "nan"); [|done].
  unfold employee_data_of. by rewrite lookup_insert_ne.
Qed.

(** ** The renderer *)

Lemma getitem_Raise {V} (d : gmap string V) key e :
  getitem d key = Raise e → e = KeyError key ∧ d !! key = None.
Proof. unfold getitem. destruct (d !! key); [done|]. by intros [= <-]. Qed.

Lemma format_2f_Raise (c : cell num) e :
  format_2f c = Raise e → ∃ msg, e = ValueError msg.
Proof. destruct c; simpl; [done..|]. intros [= <-]. by eexists. Qed.

Lemma format_2f_numbers (c : cell num) :
  is_text c = false → ∃ text, format_2f c = Ok text.
Proof. destruct c; intros; try done; by eexists. Qed.

Ltac raised_early :=
  eexists _, _; split; [reflexivity|]; simpl; split; [done|]; split; [done|];
  intros msg ->;
  match goal with
  | H : getitem _ _ = Raise _ |- _ => by apply getitem_Raise in H as [? _]
  | H : format_2f _ = Raise _ |- _ => by apply format_2f_Raise in H as [? ?]
  end.

(** X5. A record that lacks a field the renderer reads, or holds a text
    where an amount is formatted, makes [create_payslip] raise a KeyError
    or a ValueError before the canvas is saved: no file is written and
    nothing is printed. *)
Theorem unrenderable_record_writes_nothing (employee_data : dict num) w :
  renderable employee_data = false ∨ employee_data !! "Employee ID" = None →
  ∃ e w',
    create_payslip employee_data w = (Raise e, w') ∧
    pdfs w' = pdfs w ∧ stdout w' = stdout w ∧ ∀ msg, e ≠ OSError msg.
Proof.
  intros Hbad. unfold create_payslip, log_call, mkdir, now. munfold. simpl.
  destruct (getitem employee_data "Employee ID") as [id|] eqn:Hid; simpl; [|raised_early].
  destruct (getitem employee_data "Name") as [name|] eqn:Hname; simpl; [|raised_early].
  destruct (getitem employee_data "Email") as [email|] eqn:Hemail; simpl; [|raised_early].
  destruct (getitem employee_data "Basic Salary") as [basic|] eqn:Hb; simpl; [|raised_early].
  destruct (format_2f basic) as [basic_text|] eqn:Hbt; simpl; [|raised_early].
  destruct (getitem employee_data "Allowances") as [allowances|] eqn:Ha; simpl; [|raised_early].
  destruct (format_2f allowances) as [allowances_text|] eqn:Hat; simpl; [|raised_early].
  destruct (getitem employee_data "Deductions") as [deductions|] eqn:Hd; simpl; [|raised_early].
  destruct (format_2f deductions) as [deductions_text|] eqn:Hdt; simpl; [|raised_early].
  destruct (getitem employee_data "Net Salary") as [net|] eqn:Hn; simpl; [|raised_early].
  destruct (format_2f net) as [net_text|] eqn:Hnt; simpl; [|raised_early].
  exfalso. apply getitem_Ok in Hid, Hname, Hemail, Hb, Ha, Hd, Hn.
  destruct Hbad as [Hbad|Hbad]; [|congruence].
  assert (renderable employee_data = true) as Hok; [|congruence].
  apply renderable_spec. split; [by eexists|]. split; [by eexists|].
  intros c Hc. apply list_elem_of_In in Hc. simpl in Hc.
  destruct Hc as [<-|[<-|[<-|[<-|[]]]]]; eauto.
Qed.

(** X6. Whatever its outcome, [create_payslip] leaves every file but the
    record's own untouched. *)
Theorem create_payslip_touches_one_file (employee_data : dict num) w r w' f :
  create_payslip employee_data w = (r, w') →
  f ≠ payslip_path employee_data →
  pdfs w' !! f = pdfs w !! f.
Proof.
  unfold payslip_path, create_payslip, log_call, mkdir, now, save. munfold. simpl.
  unfold getitem at 1.
  destruct (employee_data !! "Employee ID") as [id|]; simpl; [|by intros [= <- <-]].
  repeat step_render; intros [= <- <-] Hne; simpl; try done.
  by rewrite lookup_insert_ne.
Qed.

Lemma payslip_path_employee_data_of row :
  payslip_path (employee_data_of row) = payslip_path row.
Proof. unfold payslip_path, employee_data_of. by rewrite lookup_insert_eq. Qed.

Lemma as_completed_in_order {A} (l : list A) :
  as_completed [] l (length l) = l.
Proof.
  induction l as [|x l IH]; [done|].
  cbn [length as_completed hd tl]. rewrite Nat.Div0.mod_0_l. simpl. by rewrite IH.
Qed.

(** The batch after a load that succeeded, with the completion order
    spelled out *)
Lemma generate_payslips_batch_schedule file_path picks w df w1 :
  load_employee_data file_path w = (Ok (Some df), w1) →
  generate_payslips_batch file_path picks w =
    (futures ← run_all (create_payslip <$>
                 as_completed picks (employee_data_of <$> iterrows df) (nrows df));
     collect_files futures []) w1.
Proof.
  intros Hload.
  pose proof (loaded_has_required_columns _ _ _ _ Hload) as Hcols.
  unfold generate_payslips_batch. munfold. rewrite Hload.
  rewrite (mapM_result_fmap render_task (create_payslip ∘ employee_data_of)).
  2: { intros row [k Hk]%list_elem_of_lookup. apply iterrows_lookup_inv in Hk as [_ ->].
       apply render_task_employee_data, row_at_required; [done|in_list]. }
  unfold thread_pool.
  by rewrite list_fmap_compose, as_completed_fmap, !length_fmap, length_iterrows.
Qed.

(** Renders that all succeed: every future holds the path of its record. *)
Lemma run_all_render_ok (records : list (dict num)) w :
  (∀ d, d ∈ records →
     renderable d = true ∧ is_Some (d !! "Employee ID") ∧ payslip_path d ∉ locked w) →
  ∃ w',
    run_all (create_payslip <$> records) w = (Ok (Ok ∘ payslip_path <$> records), w') ∧
    stdout w' = stdout w ∧ outbox w' = outbox w ∧ disk w' = disk w ∧
    refused w' = refused w ∧
    (∀ f, is_Some (pdfs w !! f) → is_Some (pdfs w' !! f)) ∧
    (∀ d, d ∈ records → is_Some (pdfs w' !! payslip_path d)).
Proof.
  revert w. induction records as [|d records IH]; intros w Hall.
  { exists w. split_and!; try done. by intros d Hd%elem_of_nil. }
  destruct (Hall d) as (Hok & [id Hid] & Hfree); [by left|].
  assert (payslip_path d = "payslips/" +:+ str_cell id +:+ ".pdf") as Hpath.
  { unfold payslip_path. by rewrite Hid. }
  rewrite Hpath in Hfree.
  destruct (create_payslip_ok d id w Hok Hid Hfree) as (page & Hrun & _).
  rewrite fmap_cons, run_all_cons, Hrun. cbn [fst snd].
  edestruct IH as (w' & -> & Hstd & Hout & Hdisk & Href & Hmono & Hfiles).
  { intros d' Hd'. destruct (Hall d') as (? & ? & ?); [by right|]. done. }
  cbn [stdout outbox disk refused pdfs] in *.
  exists w'. split; [simpl; by rewrite Hpath|]. split_and!; try done.
  - intros f Hf. apply Hmono. rewrite lookup_insert. by case_decide.
  - intros d' [->|Hd']%elem_of_cons; [|by apply Hfiles].
    apply Hmono. rewrite Hpath, lookup_insert_eq. by eexists.
Qed.

Lemma returned_all_Ok {A B} (f : A → B) (l : list A) :
  returned (Ok ∘ f <$> l) = f <$> l ∧ raised (Ok ∘ f <$> l) = [].
Proof.
  unfold returned, raised. induction l as [|x l [IH1 IH2]]; [done|].
  csimpl. by rewrite IH1, IH2.
Qed.

(** The rows of a clean roster, once loaded, can all be rendered. *)
Lemma loaded_clean_renderable file_path w df df' w' i :
  disk w !! file_path = Some df →
  forallb clean_row (iterrows df) = true →
  load_employee_data file_path w = (Ok (Some df'), w') →
  i < nrows df' →
  renderable (employee_data_of (row_at df' i)) = true.
Proof.
  intros Hdisk Hclean Hload Hi.
  pose proof (loaded_has_required_columns _ _ _ _ Hload) as Hcols.
  destruct (loaded_row_cells _ _ _ _ i Hload Hi)
    as (df0 & basic & allowances & deductions & gross & net &
        Hdisk' & Hdf' & Hb & Ha & Hd & Hgross & Hnet).
  rewrite Hdisk in Hdisk'. injection Hdisk' as <-.
  assert (clean_row (row_at df i) = true) as Hrow.
  { rewrite forallb_forall in Hclean.
    apply Hclean, list_elem_of_In, list_elem_of_lookup. exists i.
    apply iterrows_lookup. by rewrite Hdf' in Hi. }
  apply clean_row_spec in Hrow as (_ & _ & Hamounts).
  assert (∀ c, c ∈ salary_columns →
            ∃ v, row_at df' i !! c = Some v ∧ is_text v = false) as Hsame.
  { intros c Hc. specialize (Hamounts c Hc).
    assert (c ≠ "Net Salary") as Hne.
    { intros ->. apply list_elem_of_In in Hc. simpl in Hc.
      destruct Hc as [|[|[|[]]]]; discriminate. }
    rewrite Hdf', row_at_set_column_ne by done.
    destruct (row_at df i !! c) as [v|] eqn:Hv.
    - exists v. by split.
    - exfalso. rewrite row_at_lookup in Hv.
      destruct (proj1 (has_required_columns_spec df')
                  Hcols c) as [col Hcol].
      { apply list_elem_of_In in Hc. simpl in Hc. destruct Hc as [<-|[<-|[<-|[]]]]; in_list. }
      rewrite Hdf' in Hcol. simpl in Hcol. rewrite lookup_insert_ne in Hcol by done.
      by rewrite Hcol in Hv. }
  apply renderable_spec. unfold employee_data_of.
  split; [|split].
  - rewrite lookup_insert_ne by done. apply row_at_required; [done|in_list].
  - rewrite lookup_insert_ne by done. apply row_at_required; [done|in_list].
  - intros c Hc. rewrite lookup_insert_ne.
    2: { intros <-. apply list_elem_of_In in Hc. simpl in Hc.
         destruct Hc as [|[|[|[|[]]]]]; discriminate. }
    apply list_elem_of_In in Hc. simpl in Hc.
    destruct Hc as [<-|[<-|[<-|[<-|[]]]]].
    + destruct (Hsame "Basic Salary") as (v & Hv & Htext); [in_list|].
      destruct (format_2f_numbers v Htext) as [text Htx]. eauto.
    + destruct (Hsame "Allowances") as (v & Hv & Htext); [in_list|].
      destruct (format_2f_numbers v Htext) as [text Htx]. eauto.
    + destruct (Hsame "Deductions") as (v & Hv & Htext); [in_list|].
      destruct (format_2f_numbers v Htext) as [text Htx]. eauto.
    + rewrite Hdf', row_at_set_column_eq.
      destruct (format_2f_numbers (cell_at net i)) as [text Htx];
        [by eapply cell_sub_never_text|]. eauto.
Qed.

(** ** The batch of renders *)

Lemma loaded_paths file_path w df df' w' :
  disk w !! file_path = Some df →
  load_employee_data file_path w = (Ok (Some df'), w') →
  payslip_path <$> iterrows df' = payslip_path <$> iterrows df.
Proof.
  intros Hdisk Hload.
  apply load_employee_data_Some in Hload as (_ & df0 & Hdisk0 & _ & Hnet & _).
  rewrite Hdisk in Hdisk0. injection Hdisk0 as <-.
  apply calculate_net_salary_Ok in Hnet as (? & ? & ? & ? & net & _ & _ & _ & _ & _ & ->).
  unfold iterrows. simpl. rewrite <- !list_fmap_compose. apply list_fmap_ext.
  intros k i _. simpl. unfold payslip_path. by rewrite row_at_set_column_ne.
Qed.

(** The batch over a clean roster none of whose payslips is locked *)
Lemma batch_clean_roster file_path picks w df :
  disk w !! file_path = Some df →
  has_required_columns df = true →
  forallb clean_row (iterrows df) = true →
  forallb (λ row, bool_decide (payslip_path row ∉ locked w)) (iterrows df) = true →
  ∃ w',
    generate_payslips_batch file_path picks w =
      (Ok (as_completed picks (payslip_path <$> iterrows df) (nrows df)), w') ∧
    stdout w' = stdout w ∧ outbox w' = outbox w ∧ disk w' = disk w ∧
    refused w' = refused w ∧
    ∀ row, row ∈ iterrows df → is_Some (pdfs w' !! payslip_path row).
Proof.
  intros Hdisk Hcols Hclean Hfree.
  destruct (load_clean_roster file_path w df Hdisk Hcols Hclean) as [df' Hload].
  pose proof (loaded_paths _ _ _ _ _ Hdisk Hload) as Hpaths.
  assert (nrows df' = nrows df) as Hn.
  { apply load_employee_data_Some in Hload as (_ & df0 & Hdisk0 & _ & Hnet & _).
    rewrite Hdisk in Hdisk0. injection Hdisk0 as <-.
    by apply calculate_net_salary_Ok in Hnet
      as (? & ? & ? & ? & net & _ & _ & _ & _ & _ & ->). }
  rewrite (generate_payslips_batch_schedule _ picks _ _ _ Hload). munfold.
  set (records := as_completed picks (employee_data_of <$> iterrows df') (nrows df')).
  assert (records ≡ₚ employee_data_of <$> iterrows df') as Hperm.
  { apply as_completed_Permutation. by rewrite length_fmap, length_iterrows. }
  assert (∀ row, row ∈ iterrows df → payslip_path row ∉ locked w) as Hfree'.
  { intros row Hrow. rewrite forallb_forall in Hfree.
    apply list_elem_of_In, Hfree in Hrow. by apply bool_decide_eq_true in Hrow. }
  assert (∀ f, f ∈ payslip_path <$> iterrows df → f ∉ locked w) as Hfree''.
  { intros f (row & -> & Hrow)%list_elem_of_fmap. by apply Hfree'. }
  destruct (run_all_render_ok records w)
    as (w2 & -> & Hstd & Hout & Hdisk2 & Href & _ & Hfiles).
  { intros d Hd. rewrite Hperm in Hd.
    apply list_elem_of_fmap in Hd as (row & -> & [i Hrow]%list_elem_of_lookup).
    apply iterrows_lookup_inv in Hrow as [Hi ->]. split_and!.
    - by eapply loaded_clean_renderable.
    - unfold employee_data_of. rewrite lookup_insert_eq. by eexists.
    - rewrite payslip_path_employee_data_of. apply Hfree''. rewrite <- Hpaths.
      apply list_elem_of_fmap. eexists. split; [done|].
      apply list_elem_of_lookup. exists i. by apply iterrows_lookup. }
  rewrite collect_files_spec.
  destruct (returned_all_Ok payslip_path records) as [-> ->]. simpl.
  rewrite app_nil_r.
  eexists. split.
  { f_equal. f_equal. unfold records.
    rewrite <- as_completed_fmap, <- list_fmap_compose, Hn.
    f_equal. rewrite <- Hpaths. apply list_fmap_ext. intros k row _. simpl.
    apply payslip_path_employee_data_of. }
  cbn [stdout outbox disk refused pdfs]. split_and!; try done.
  intros row Hrow.
  assert (payslip_path row ∈ payslip_path <$> iterrows df') as Hin.
  { rewrite Hpaths. apply list_elem_of_fmap. eauto. }
  apply list_elem_of_fmap in Hin as (row' & -> & Hrow').
  rewrite <- payslip_path_employee_data_of. apply Hfiles. rewrite Hperm.
  apply list_elem_of_fmap. eauto.
Qed.

(** X7. When every record of a clean roster can be written, the batch
    returns one file per row, the paths of the rows in completion order,
    prints no error and leaves every file on disk; with renders that
    complete in submission order the files come back in row order. *)
Theorem batch_renders_clean_roster file_path picks w df :
  disk w !! file_path = Some df →
  has_required_columns df = true →
  forallb clean_row (iterrows df) = true →
  forallb (λ row, bool_decide (payslip_path row ∉ locked w)) (iterrows df) = true →
  ∃ generated_files w',
    generate_payslips_batch file_path picks w = (Ok generated_files, w') ∧
    generated_files ≡ₚ payslip_path <$> iterrows df ∧
    length generated_files = nrows df ∧
    stdout w' = stdout w ∧
    (∀ f, f ∈ generated_files → is_Some (pdfs w' !! f)) ∧
    (picks = [] → generated_files = payslip_path <$> iterrows df).
Proof.
  intros Hdisk Hcols Hclean Hfree.
  destruct (batch_clean_roster file_path picks w df Hdisk Hcols Hclean Hfree)
    as (w' & Hrun & Hstd & _ & _ & _ & Hfiles).
  assert (as_completed picks (payslip_path <$> iterrows df) (nrows df)
          ≡ₚ payslip_path <$> iterrows df) as Hperm.
  { apply as_completed_Permutation. by rewrite length_fmap, length_iterrows. }
  eexists _, w'. split; [exact Hrun|]. split; [exact Hperm|]. split_and!.
  - by rewrite Hperm, length_fmap, length_iterrows.
  - done.
  - intros f Hf. rewrite Hperm in Hf.
    apply list_elem_of_fmap in Hf as (row & -> & Hrow). by apply Hfiles.
  - intros ->. rewrite <- (length_iterrows df), <- (length_fmap payslip_path).
    apply as_completed_in_order.
Qed.

(** ** Sending *)

(** X8. [send_email] returns [True] exactly when the attachment exists,
    the address is a text and the server accepts it; then one message to
    that address, carrying the file under its base name, joins the outbox.
    Otherwise it returns [False] and nothing is sent.  Each call prints one
    line and touches no file. *)
Theorem send_email_outcome (to_email : cell num) subject body attachment_path cfg w :
  ∃ sent w' line,
    send_email to_email subject body attachment_path cfg w = (Ok sent, w') ∧
    pdfs w' = pdfs w ∧ stdout w' = stdout w ++ [line] ∧
    calls w' = calls w ++ [CallSend to_email attachment_path] ∧
    (sent = true ↔
       ∃ to page, to_email = Str to ∧ pdfs w !! attachment_path = Some page ∧
                  to ∉ refused w) ∧
    (∀ to page,
       to_email = Str to → pdfs w !! attachment_path = Some page → to ∉ refused w →
       outbox w' = outbox w ++
         [{| msg_from := from_email cfg; msg_to := to; msg_subject := subject;
             msg_body := body; msg_attachment_name := basename attachment_path;
             msg_attachment := page |}]) ∧
    (sent = false → outbox w' = outbox w).
Proof.
  unfold send_email, log_call, read_file, sendmail, print. munfold.
  cbn [pdfs refused outbox stdout calls disk today dirs locked].
  destruct (pdfs w !! attachment_path) as [page|].
  2: { eexists false, _, _. split; [reflexivity|]. cbn. split_and!; try done.
       split; [done|]. by intros (? & ? & _ & ? & _). }
  destruct to_email as [|x|to].
  - eexists false, _, _. split; [reflexivity|]. cbn. split_and!; try done.
    split; [done|]. by intros (? & ? & ? & _).
  - eexists false, _, _. split; [reflexivity|]. cbn. split_and!; try done.
    split; [done|]. by intros (? & ? & ? & _).
  - cbn. destruct (decide (to ∈ refused w)) as [Hin|Hout].
    + eexists false, _, _. split; [reflexivity|]. cbn. split_and!; try done.
      * split; [done|]. intros (? & ? & [= <-] & _ & ?). done.
      * intros ? ? [= <-] _ ?. done.
    + eexists true, _, _. split; [reflexivity|]. cbn. split_and!; try done.
      * split; [|done]. intros _. by exists to, page.
      * by intros ? ? [= <-] [= <-] _.
Qed.

(** With the files in row order, what is delivered is each row's own
    payslip. *)
Lemma aligned_delivery df cfg (files : gmap string (list draw)) (bounced : gset string)
    (attempts : list (string * dict num)) m :
  attempts ≡ₚ zip (payslip_path <$> iterrows df) (iterrows df) →
  m ∈ omap (delivery files bounced cfg) attempts →
  ∃ i, i < nrows df ∧
       row_at df i !! "Email" = Some (Str (msg_to m)) ∧
       msg_attachment_name m = basename (payslip_path (row_at df i)) ∧
       files !! payslip_path (row_at df i) = Some (msg_attachment m) ∧
       msg_to m ∉ bounced.
Proof.
  intros Hperm (pair & Hpair & Hm)%list_elem_of_omap.
  rewrite Hperm in Hpair. apply list_elem_of_lookup in Hpair as [i Hi].
  apply lookup_zip_with_Some in Hi as (file_path & row & -> & Hfile & Hrow).
  apply iterrows_lookup_inv in Hrow as [Hlt ->].
  rewrite list_lookup_fmap, iterrows_lookup in Hfile by done.
  injection Hfile as <-.
  exists i. split; [done|]. unfold delivery, to_email_of in Hm. cbn [fst snd] in Hm.
  destruct (files !! payslip_path (row_at df i)) as [page|]; [|done].
  destruct (row_at df i !! "Email") as [[|x|to]|]; try done. cbn in Hm.
  destruct (decide (to ∈ bounced)); [done|]. by injection Hm as <-.
Qed.

(** X9. Given the files in row order, [send_payslips] delivers to each
    address the file of that same row: the positional pairing is right
    when the two sequences are aligned. *)
Theorem send_payslips_aligned df cfg picks w :
  is_Some (columns df !! "Name") → is_Some (columns df !! "Email") →
  ∃ sent_count w' delivered,
    send_payslips (payslip_path <$> iterrows df) df cfg picks w = (Ok sent_count, w') ∧
    outbox w' = outbox w ++ delivered ∧ sent_count = length delivered ∧
    ∀ m, m ∈ delivered →
      ∃ i, i < nrows df ∧
           row_at df i !! "Email" = Some (Str (msg_to m)) ∧
           msg_attachment_name m = basename (payslip_path (row_at df i)) ∧
           pdfs w !! payslip_path (row_at df i) = Some (msg_attachment m).
Proof.
  intros Hname Hemail.
  destruct (send_payslips_spec (payslip_path <$> iterrows df) df cfg picks w Hname Hemail)
    as (attempts & lines & Hperm & _ & Hrun).
  eexists _, _, _. split; [exact Hrun|]. cbn [outbox]. split; [done|]. split; [done|].
  intros m Hm. destruct (aligned_delivery _ _ _ _ _ _ Hperm Hm) as (i & ? & ? & ? & ? & _).
  by exists i.
Qed.

(** X10. A frame without its Name or Email column makes
    [send_payslips] raise the KeyError of the first pair before any task
    is submitted: no e-mail is attempted and nothing is printed.  With no
    file or no row there is no pair to trip over, and it returns 0. *)
Theorem send_payslips_missing_column generated_files df cfg picks w :
  columns df !! "Name" = None ∨ columns df !! "Email" = None →
  (generated_files = [] ∨ nrows df = 0 →
     send_payslips generated_files df cfg picks w = (Ok 0, w)) ∧
  (generated_files ≠ [] → 0 < nrows df →
     ∃ key,
       send_payslips generated_files df cfg picks w = (Raise (KeyError key), w) ∧
       (key = "Name" ∨ key = "Email")).
Proof.
  intros Hmissing. split.
  - intros Hempty.
    assert (zip generated_files (iterrows df) = []) as Hzip.
    { destruct Hempty as [->|Hn]; [done|].
      unfold iterrows. rewrite Hn. simpl. by destruct generated_files. }
    unfold send_payslips. rewrite Hzip. reflexivity.
  - intros Hfiles Hrows.
    destruct generated_files as [|file_path files]; [done|].
    unfold send_payslips, iterrows.
    destruct (nrows df) as [|n]; [lia|]. cbn [seq fmap list_fmap zip_with]. munfold.
    assert (∃ key, send_task cfg (file_path, row_at df 0) = Raise (KeyError key) ∧
                   (key = "Name" ∨ key = "Email")) as (key & Htask & Hkey).
    { unfold send_task, getitem. rewrite !row_at_lookup.
      destruct (columns df !! "Name") as [names|]; simpl.
      - destruct Hmissing as [|Hemail]; [done|]. rewrite Hemail. simpl.
        exists "Email". split; [reflexivity|by right].
      - exists "Name". split; [reflexivity|by left]. }
    cbn [mapM]. rewrite Htask. exists key. by split.
Qed.

(** ** The driver, end to end *)

Lemma loaded_is_set_column file_path w df df' w' :
  disk w !! file_path = Some df →
  load_employee_data file_path w = (Ok (Some df'), w') →
  ∃ net, df' = set_column df "Net Salary" net.
Proof.
  intros Hdisk Hload.
  apply load_employee_data_Some in Hload as (_ & df0 & Hdisk0 & _ & Hnet & _).
  rewrite Hdisk in Hdisk0. injection Hdisk0 as <-.
  apply calculate_net_salary_Ok in Hnet as (? & ? & ? & ? & net & _ & _ & _ & _ & _ & ->).
  by exists net.
Qed.

(** X11. [main] never ends in an exception.  When the roster loads, its
    last line is the summary, and the two numbers in it are what the run
    did: the first is the number of messages this run added to the
    outbox, the second the length of the list [generate_payslips_batch]
    returned.  Sent is at most files, files at most rows. *)
Theorem main_never_raises picks_render picks_send w :
  ∃ w',
    main picks_render picks_send w = (Ok tt, w') ∧
    ∀ df w1,
      load_employee_data excel_file w = (Ok (Some df), w1) →
      ∃ generated_files delivered,
        (generate_payslips_batch excel_file picks_render
           (print "Generating payslips..." w).2).1 = Ok generated_files ∧
        outbox w' = outbox w ++ delivered ∧
        last (stdout w') =
          Some ("Successfully sent " +:+ pretty (length delivered) +:+ " emails out of "
                +:+ pretty (length generated_files)) ∧
        length delivered ≤ length generated_files ∧
        length generated_files ≤ nrows df.
Proof.
  destruct (load_employee_data_total excel_file (print "Generating payslips..." w).2)
    as ([df0|] & w1 & Hload).
  - destruct (main_summary picks_render picks_send w df0 w1 Hload)
      as (generated_files & delivered & w' & Hgen & Hmain & Hbox & Hlast & Hsent & Hfiles).
    exists w'. split; [exact Hmain|].
    intros df w2 Hload'.
    pose proof (load_depends_on_disk excel_file (print "Generating payslips..." w).2 w
                  eq_refl) as Hsame.
    rewrite Hload, Hload' in Hsame. injection Hsame as <-.
    rewrite (proj1 (load_employee_data_Some _ _ _ _ Hload)) in Hgen.
    by exists generated_files, delivered.
  - exists w1. split.
    + assert (∀ line w0, print line w0 = (Ok tt, (print line w0).2)) as Hprint by done.
      unfold main. munfold. by rewrite (Hprint "Generating payslips..." w), Hload.
    + intros df w2 Hload'.
      pose proof (load_depends_on_disk excel_file (print "Generating payslips..." w).2 w
                    eq_refl) as Hsame.
      by rewrite Hload, Hload' in Hsame.
Qed.

(** X12. A sheet with the header row only is not a failed load: [main]
    goes through both stages with nothing to do and reports 0 out of 0. *)
Theorem main_on_empty_roster picks_render picks_send w df :
  disk w !! excel_file = Some df →
  has_required_columns df = true →
  nrows df = 0 →
  ∃ w',
    main picks_render picks_send w = (Ok tt, w') ∧
    stdout w' = stdout w ++
      ["Generating payslips..."; nl +:+ "Sending emails...";
       nl +:+ "Email sending complete!"; "Successfully sent 0 emails out of 0"] ∧
    calls w' = calls w ∧ pdfs w' = pdfs w ∧ outbox w' = outbox w.
Proof.
  intros Hdisk Hcols Hrows.
  set (w0 := (print "Generating payslips..." w).2).
  assert (load_employee_data excel_file w0 =
          (Ok (Some (set_column df "Net Salary" [])), w0)) as Hload.
  { rewrite load_employee_data_cases. cbn [w0 print snd disk]. rewrite Hdisk, Hcols.
    destruct (proj1 (has_required_columns_spec df) Hcols "Basic Salary") as [? Hb]; [in_list|].
    destruct (proj1 (has_required_columns_spec df) Hcols "Allowances") as [? Ha]; [in_list|].
    destruct (proj1 (has_required_columns_spec df) Hcols "Deductions") as [? Hd]; [in_list|].
    unfold calculate_net_salary, series_op.
    rewrite (getitem_Some _ _ _ Hb), (getitem_Some _ _ _ Ha), (getitem_Some _ _ _ Hd), Hrows.
    cbn. unfold iterrows. cbn. rewrite Hrows. reflexivity. }
  assert (generate_payslips_batch excel_file picks_render w0 = (Ok [], w0)) as Hgen.
  { rewrite (generate_payslips_batch_schedule _ picks_render _ _ _ Hload).
    cbn [nrows set_column]. rewrite Hrows. cbn. by destruct w. }
  assert (∀ line w1, print line w1 = (Ok tt, (print line w1).2)) as Hprint by done.
  eexists. split.
  { unfold main. munfold. rewrite (Hprint "Generating payslips..." w).
    fold w0. rewrite Hload, Hgen, (Hprint _ w0).
    unfold send_payslips. cbn. reflexivity. }
  cbn. rewrite <- !app_assoc. by split_and!.
Qed.

(** X13. End to end, on a clean roster whose payslips can all be
    written and whose renders complete in submission order: every message
    sent goes to the address of a row and carries the payslip of that same
    row, and every row whose address the server accepts gets its message. *)
Theorem main_in_order_delivers_own_payslips picks_send w df :
  disk w !! excel_file = Some df →
  has_required_columns df = true →
  forallb clean_row (iterrows df) = true →
  forallb (λ row, bool_decide (payslip_path row ∉ locked w)) (iterrows df) = true →
  ∃ w' delivered,
    main [] picks_send w = (Ok tt, w') ∧
    outbox w' = outbox w ++ delivered ∧
    (∀ m, m ∈ delivered →
       ∃ i, i < nrows df ∧
            row_at df i !! "Email" = Some (Str (msg_to m)) ∧
            msg_attachment_name m = basename (payslip_path (row_at df i)) ∧
            pdfs w' !! payslip_path (row_at df i) = Some (msg_attachment m)) ∧
    (∀ i to,
       i < nrows df → row_at df i !! "Email" = Some (Str to) → to ∉ refused w →
       ∃ m, m ∈ delivered ∧ msg_to m = to ∧
            msg_attachment_name m = basename (payslip_path (row_at df i))).
Proof.
  intros Hdisk Hcols Hclean Hfree.
  set (w0 := (print "Generating payslips..." w).2).
  destruct (load_clean_roster excel_file w0 df Hdisk Hcols Hclean) as [df' Hload].
  destruct (loaded_is_set_column excel_file w0 df df' w0 Hdisk Hload) as [net Hdf'].
  pose proof (loaded_has_required_columns _ _ _ _ Hload) as Hcols'.
  pose proof (loaded_paths excel_file w0 df df' w0 Hdisk Hload) as Hpaths.
  destruct (batch_clean_roster excel_file [] w0 df Hdisk Hcols Hclean Hfree)
    as (w2 & Hgen & _ & Hout2 & _ & Href2 & Hfiles).
  rewrite <- (length_iterrows df), <- (length_fmap payslip_path),
    as_completed_in_order, <- Hpaths in Hgen.
  set (w3 := (print (nl +:+ "Sending emails...") w2).2).
  destruct (send_payslips_spec (payslip_path <$> iterrows df') df' main_smtp_config
              picks_send w3) as (attempts & lines & Hperm & _ & Hsend).
  { apply (proj1 (has_required_columns_spec df') Hcols'). in_list. }
  { apply (proj1 (has_required_columns_spec df') Hcols'). in_list. }
  assert (∀ i, payslip_path (row_at df' i) = payslip_path (row_at df i)) as Hpath.
  { intros i. unfold payslip_path. by rewrite Hdf', row_at_set_column_ne. }
  assert (∀ i, row_at df' i !! "Email" = row_at df i !! "Email") as Hmail.
  { intros i. by rewrite Hdf', row_at_set_column_ne. }
  assert (nrows df' = nrows df) as Hn by (by rewrite Hdf').
  assert (∀ line w1, print line w1 = (Ok tt, (print line w1).2)) as Hprint by done.
  eexists _, _. split; [|split; [|split]].
  - unfold main. munfold. rewrite (Hprint "Generating payslips..." w). fold w0.
    rewrite Hload, Hgen, (Hprint _ w2). fold w3. rewrite Hsend. reflexivity.
  - cbn [outbox print snd w3]. by rewrite Hout2.
  - intros m Hm.
    destruct (aligned_delivery _ _ _ _ _ _ Hperm Hm) as (i & Hi & Hemail & Hname & Hfile & _).
    exists i. rewrite Hn in Hi. rewrite Hmail in Hemail. rewrite Hpath in Hname, Hfile.
    split_and!; try done.
  - intros i to Hi Hemail Hok.
    assert ((payslip_path (row_at df' i), row_at df' i) ∈ attempts) as Hin.
    { rewrite Hperm. apply list_elem_of_lookup. exists i.
      apply lookup_zip_with_Some. eexists _, _. split; [done|].
      rewrite list_lookup_fmap, !iterrows_lookup by lia. done. }
    destruct (Hfiles (row_at df i)) as [page Hpage].
    { apply list_elem_of_lookup. exists i. by apply iterrows_lookup. }
    assert (∃ m, delivery (pdfs w3) (refused w3) main_smtp_config
                   (payslip_path (row_at df' i), row_at df' i) = Some m ∧
                 msg_to m = to ∧
                 msg_attachment_name m = basename (payslip_path (row_at df i)))
      as (m & Hm & Hto & Hname).
    { unfold delivery, to_email_of. cbn [fst snd].
      change (pdfs w3) with (pdfs w2). change (refused w3) with (refused w2).
      rewrite Href2, (Hpath i), Hpage, (Hmail i), Hemail. cbn.
      change (refused w0) with (refused w).
      destruct (decide (to ∈ refused w)); [done|].
      eexists. split; [reflexivity|]. by split. }
    exists m. split; [|done].
    apply list_elem_of_omap. eexists. split; [exact Hin|exact Hm].
Qed.

(** ** The name of the attachment *)

Lemma append_cons c (s t : string) : String c s +:+ t = String c (s +:+ t).
Proof. reflexivity. Qed.

Lemma append_empty_r (s : string) : s +:+ "" = s.
Proof. induction s as [|c s IH]; [done|]. by rewrite append_cons, IH. Qed.

Lemma append_snoc (acc : string) c rest :
  (acc +:+ String c "") +:+ rest = acc +:+ String c rest.
Proof. induction acc as [|a acc IH]; [done|]. by rewrite !append_cons, IH. Qed.

Lemma basename_from_no_slash acc s :
  no_slash s = true → basename_from acc s = acc +:+ s.
Proof.
  revert acc. induction s as [|c s IH]; intros acc; simpl.
  - intros _. by rewrite append_empty_r.
  - intros [Hc Hs]%andb_true_iff. apply negb_true_iff in Hc. rewrite Hc.
    rewrite IH by done. apply append_snoc.
Qed.

Lemma no_slash_app s t :
  no_slash s = true → no_slash t = true → no_slash (s +:+ t) = true.
Proof.
  induction s as [|c s IH]; [done|]. rewrite append_cons. simpl.
  intros [Hc Hs]%andb_true_iff Ht. rewrite Hc. simpl. by apply IH.
Qed.

Lemma basename_payslips (s : string) : basename ("payslips/" +:+ s) = basename s.
Proof. reflexivity. Qed.

(** X14. The attachment of a payslip is named after the employee: for an
    identifier whose text has no slash, the base name [send_email] gives
    the file [create_payslip] wrote is <identifier>.pdf. *)
Theorem payslip_attachment_name (employee_data : dict num) id :
  employee_data !! "Employee ID" = Some id →
  no_slash (str_cell id) = true →
  basename (payslip_path employee_data) = str_cell id +:+ ".pdf".
Proof.
  intros Hid Hslash. unfold payslip_path. rewrite Hid.
  change (default NaN (Some id)) with id.
  rewrite basename_payslips. unfold basename.
  rewrite basename_from_no_slash; [reflexivity|]. by apply no_slash_app.
Qed.

End Properties.

(** * Amounts in float64 *)

(** ** The sign of a difference

    For floats [x < y] the difference [x - y] is negative: it is a
    multiple of the smallest positive float, so rounding does not take it
    to zero.  The proof goes through the specification of binary64. *)

Lemma SFltb_zero x : SFltb x (S754_zero false) = SFnegative x.
Proof. by destruct x as [[]|[]| |[] ? ?]. Qed.

Lemma digits2_pos_bounds (m : positive) :
  (2 ^ (Z.pos (digits2_pos m) - 1) ≤ Z.pos m < 2 ^ Z.pos (digits2_pos m))%Z.
Proof.
  induction m as [m IH|m IH|]; cbn [digits2_pos]; [| |done].
  all: rewrite Pos2Z.inj_succ.
  all: pose proof (Pos2Z.is_pos (digits2_pos m)) as Hd.
  all: set (d := Z.pos (digits2_pos m)) in *.
  all: replace (Z.succ d - 1)%Z with d by lia.
  all: rewrite (Z.pow_succ_r 2 d) by lia.
  all: assert (2 ^ d = 2 * 2 ^ (d - 1))%Z as Hpow
         by (rewrite <- Z.pow_succ_r by lia; f_equal; lia).
  all: lia.
Qed.

(** A float is normal, with 53 digits, or has the least exponent. *)
Lemma bounded_canonical m e :
  bounded prec emax m e = true →
  (Z.pos (digits2_pos m) ≤ 53 ∧ -1074 ≤ e ∧ (Z.pos (digits2_pos m) = 53 ∨ e = -1074))%Z.
Proof.
  unfold bounded, canonical_mantissa, fexp, SpecFloat.emin, prec, emax.
  intros [H _]%andb_prop. apply Z.eqb_eq in H. lia.
Qed.

Lemma shl_align_value m e e' :
  (e' ≤ e)%Z → (Z.pos (shl_align m e e').1 = Z.pos m * 2 ^ (e - e'))%Z.
Proof.
  intros Hle. unfold shl_align.
  destruct (e' - e)%Z as [|d|d] eqn:Hd; [| lia |].
  - replace (e - e')%Z with 0%Z by lia. simpl. lia.
  - replace (e - e')%Z with (Z.pos d) by lia. cbn [fst].
    change (Pos.iter xO m d) with (shift_pos d m).
    rewrite shift_pos_correct. rewrite Z.mul_comm. by f_equal.
Qed.

Lemma shr_1_m mrs : (0 ≤ shr_m mrs)%Z → shr_m (shr_1 mrs) = (shr_m mrs / 2)%Z.
Proof.
  destruct mrs as [[|[p|p|]|p] r s]; cbn [shr_m shr_1]; intros Hm; try lia; try done.
  - rewrite Pos2Z.inj_xI. apply Z.div_unique with 1%Z; lia.
  - rewrite Pos2Z.inj_xO. apply Z.div_unique with 0%Z; lia.
Qed.

Lemma iter_pos_shr_1_m p mrs :
  (0 ≤ shr_m mrs)%Z →
  shr_m (SpecFloat.iter_pos shr_1 p mrs) = (shr_m mrs / 2 ^ Z.pos p)%Z.
Proof.
  revert mrs. induction p as [p IH|p IH|]; intros mrs Hm; cbn [SpecFloat.iter_pos].
  - assert (0 ≤ shr_m (shr_1 mrs))%Z as H1.
    { rewrite shr_1_m by done. apply Z.div_pos; lia. }
    assert (0 ≤ shr_m (SpecFloat.iter_pos shr_1 p (shr_1 mrs)))%Z as H2.
    { rewrite IH by done. apply Z.div_pos; lia. }
    rewrite IH, IH, shr_1_m by done.
    rewrite !Z.div_div by lia. f_equal.
    replace (Z.pos p~1) with (1 + Z.pos p + Z.pos p)%Z by lia.
    rewrite !Z.pow_add_r by lia. lia.
  - assert (0 ≤ shr_m (SpecFloat.iter_pos shr_1 p mrs))%Z as H2.
    { rewrite IH by done. apply Z.div_pos; lia. }
    rewrite IH, IH by done.
    rewrite !Z.div_div by lia. f_equal.
    replace (Z.pos p~0) with (Z.pos p + Z.pos p)%Z by lia.
    rewrite !Z.pow_add_r by lia. lia.
  - rewrite shr_1_m by done. by rewrite Z.pow_1_r.
Qed.

(** Rounding a positive mantissa whose exponent is not below the least
    one leaves a positive mantissa. *)
Lemma shr_fexp_positive m e l :
  (0 < m)%Z → (-1074 ≤ e)%Z →
  (0 < shr_m (shr_fexp prec emax m e l).1)%Z ∧ (-1074 ≤ (shr_fexp prec emax m e l).2)%Z.
Proof.
  intros Hm He. unfold shr_fexp, shr.
  assert (shr_m (shr_record_of_loc m l) = m) as Hrec by (by destruct l as [|[]]).
  destruct m as [|m|m]; [lia| |lia]. cbn [Zdigits2].
  pose proof (digits2_pos_bounds m) as [Hlow _].
  set (d := Z.pos (digits2_pos m)) in *.
  assert (1 ≤ d)%Z as Hd by (unfold d; lia).
  unfold fexp, SpecFloat.emin, prec, emax.
  destruct (Z.max (d + e - 53) (3 - 1024 - 53) - e)%Z as [|n|n] eqn:Hn; cbn [fst snd].
  1, 3: rewrite Hrec; lia.
  rewrite iter_pos_shr_1_m, Hrec by (rewrite Hrec; lia).
  split; [|lia].
  apply Z.div_str_pos. split; [lia|].
  transitivity (2 ^ (d - 1))%Z; [|done].
  apply Z.pow_le_mono_r; lia.
Qed.

Lemma round_nearest_even_positive m l : (0 < m)%Z → (0 < round_nearest_even m l)%Z.
Proof. destruct l as [|[]]; cbn; [done|by destruct (Z.even m); lia|done|lia]. Qed.

Lemma binary_round_aux_negative m e l :
  (0 < m)%Z → (-1074 ≤ e)%Z →
  SFnegative (binary_round_aux prec emax true m e l) = true.
Proof.
  intros Hm He. unfold binary_round_aux.
  pose proof (shr_fexp_positive m e l Hm He) as [Hm1 He1].
  destruct (shr_fexp prec emax m e l) as [mrs1 e1]. cbn [fst snd] in *.
  pose proof (round_nearest_even_positive (shr_m mrs1) (loc_of_shr_record mrs1) Hm1) as Hr.
  pose proof (shr_fexp_positive _ e1 loc_Exact Hr He1) as [Hm2 _].
  destruct (shr_fexp prec emax _ e1 loc_Exact) as [mrs2 e2]. cbn [fst snd] in *.
  destruct (shr_m mrs2); [lia| |lia].
  by destruct (e2 <=? emax - prec)%Z.
Qed.

Lemma binary_normalize_negative m e :
  (m < 0)%Z → (-1074 ≤ e)%Z →
  SFnegative (binary_normalize prec emax m e false) = true.
Proof.
  intros Hm He. destruct m as [|m|m]; [lia|lia|].
  unfold binary_normalize, binary_round.
  destruct (shl_align m e _) as [mz ez] eqn:Halign.
  apply binary_round_aux_negative; [done|].
  revert Halign. unfold shl_align, fexp, SpecFloat.emin, prec, emax.
  destruct (_ - e)%Z; intros [= <- <-]; lia.
Qed.

Lemma SFsub_negative x y :
  valid_binary prec emax x = true → valid_binary prec emax y = true →
  SFltb x y = true → SFnegative (SF64sub x y) = true.
Proof.
  destruct x as [sx|sx| |sx mx ex], y as [sy|sy| |sy my ey]; intros Hx Hy.
  all: try (by cbn).
  all: try (by destruct sx; cbn).
  all: try (by destruct sy; cbn).
  all: try (by destruct sx, sy; cbn).
  cbn [valid_binary] in Hx, Hy.
  apply bounded_canonical in Hx as (Hdx & Hex & Hcx), Hy as (Hdy & Hey & Hcy).
  pose proof (digits2_pos_bounds mx) as [Hlx Hux].
  pose proof (digits2_pos_bounds my) as [Hly Huy].
  intros Hlt. unfold SF64sub, SFsub.
  apply binary_normalize_negative; [|lia].
  rewrite !shl_align_value by lia.
  assert (Z.pos mx < 2 ^ 53)%Z as Hmx.
  { eapply Z.lt_le_trans; [exact Hux|]. apply Z.pow_le_mono_r; lia. }
  assert (Z.pos my < 2 ^ 53)%Z as Hmy.
  { eapply Z.lt_le_trans; [exact Huy|]. apply Z.pow_le_mono_r; lia. }
  assert (∀ k, 0 < k → 2 ≤ 2 ^ k)%Z as Hpow.
  { intros k Hk. change 2%Z with (2 ^ 1)%Z at 1. apply Z.pow_le_mono_r; lia. }
  unfold SFltb, SFcompare in Hlt.
  change (PosDef.Pos.compare_cont Eq mx my) with (mx ?= my)%positive in Hlt.
  destruct sx, sy; cbn [cond_Zopp]; [| lia | done |].
  - destruct (Z.compare_spec ex ey) as [->|Hlt'|Hgt]; [| done |].
    + rewrite Z.min_id, Z.sub_diag, Z.pow_0_r.
      destruct (Pos.compare_spec mx my); try done. lia.
    + rewrite Z.min_r, Z.sub_diag, Z.pow_0_r by lia.
      destruct Hcx as [Hcx|Hcx]; [|lia].
      rewrite Hcx in Hlx. change (2 ^ (53 - 1))%Z with (2 ^ 52)%Z in Hlx.
      pose proof (Hpow (ex - ey)%Z ltac:(lia)). nia.
  - destruct (Z.compare_spec ex ey) as [->|Hlt'|Hgt]; [| | done].
    + rewrite Z.min_id, Z.sub_diag, Z.pow_0_r.
      destruct (Pos.compare_spec mx my); try done. lia.
    + rewrite Z.min_l, Z.sub_diag, Z.pow_0_r by lia.
      destruct Hcy as [Hcy|Hcy]; [|lia].
      rewrite Hcy in Hly. change (2 ^ (53 - 1))%Z with (2 ^ 52)%Z in Hly.
      pose proof (Hpow (ey - ex)%Z ltac:(lia)). nia.
Qed.

Lemma float64_sub_negative (x y : float) :
  (x <? y)%float = true → (x - y <? 0)%float = true.
Proof.
  rewrite !ltb_spec, sub_spec. intros Hlt.
  change (Prim2SF 0) with (S754_zero false). rewrite SFltb_zero.
  apply SFsub_negative; [apply Prim2SF_valid..|done].
Qed.

(** ** The sign of a formatted amount *)

Lemma float64_fmt_negative (x : float) :
  (x <? 0)%float = true → float64_fmt x = "-" +:+ float64_magnitude x.
Proof.
  rewrite ltb_spec. change (Prim2SF 0) with (S754_zero false). rewrite SFltb_zero.
  unfold float64_fmt. rewrite classify_spec. unfold SF64classify, SFclassify.
  destruct (Prim2SF x) as [s|[]| |[] m e]; try done; intros _.
  by destruct (_ =? _)%Z.
Qed.

(** ** No floor under the net salary *)

(** C9.  There is no floor under the net salary.  In a roster of float64
    amounts that loaded, the net salary stored for a row is the float64
    result of basic salary + allowances - deductions, whatever its sign.
    When the deductions exceed the sum of basic salary and allowances as
    the program computes it, the stored net salary is negative, and the
    payslip shows the amount with a minus sign, not zero. *)
Theorem net_salary_has_no_floor file_path (w : world float) df' w' i (b a d : float) :
  load_employee_data file_path w = (Ok (Some df'), w') →
  (i < nrows df')%nat →
  row_at df' i !! "Basic Salary" = Some (Num b) →
  row_at df' i !! "Allowances" = Some (Num a) →
  row_at df' i !! "Deductions" = Some (Num d) →
  (b + a <? d)%float = true →
  row_at df' i !! "Net Salary" = Some (Num (b + a - d)%float) ∧
  (b + a - d <? 0)%float = true ∧
  ∀ (w2 : world float) id,
    row_at df' i !! "Employee ID" = Some id →
    "payslips/" +:+ str_cell id +:+ ".pdf" ∉ locked w2 →
    ∃ page w2',
      create_payslip (employee_data_of (row_at df' i)) w2 =
        (Ok ("payslips/" +:+ str_cell id +:+ ".pdf"), w2') ∧
      pdfs w2' !! ("payslips/" +:+ str_cell id +:+ ".pdf") = Some page ∧
      DrawString 20 120 ("📊 Net Salary: $-" +:+ float64_magnitude (b + a - d)) ∈ page.
Proof.
  intros Hload Hi Hb Ha Hd Hlt.
  assert (row_at df' i !! "Net Salary" = Some (Num (b + a - d)%float)) as Hn.
  { destruct (loaded_row_cells _ _ _ _ i Hload Hi)
      as (df & basic & allowances & deductions & gross & net &
          _ & -> & Hb' & Ha' & Hd' & Hgross & Hnet).
    rewrite row_at_set_column_ne, row_at_lookup, Hb' in Hb by done.
    rewrite row_at_set_column_ne, row_at_lookup, Ha' in Ha by done.
    rewrite row_at_set_column_ne, row_at_lookup, Hd' in Hd by done.
    simpl in Hb, Ha, Hd. injection Hb as Hb. injection Ha as Ha. injection Hd as Hd.
    rewrite row_at_set_column_eq. f_equal.
    exact (net_of_numbers _ _ _ _ _ b a d Hgross Hnet Hb Ha Hd). }
  pose proof (float64_sub_negative _ _ Hlt) as Hneg.
  split; [exact Hn|]. split; [exact Hneg|].
  intros w2 id Hid Hfree.
  pose proof (loaded_has_required_columns _ _ _ _ Hload) as Hcols.
  set (row := row_at df' i) in *.
  assert (renderable (employee_data_of row) = true) as Hok.
  { apply renderable_spec. unfold employee_data_of.
    split; [|split].
    - rewrite lookup_insert_ne by done. apply row_at_required; [done|in_list].
    - rewrite lookup_insert_ne by done. apply row_at_required; [done|in_list].
    - intros c Hc. rewrite lookup_insert_ne.
      2: { intros <-. apply list_elem_of_In in Hc. simpl in Hc.
           destruct Hc as [|[|[|[|[]]]]]; discriminate. }
      apply list_elem_of_In in Hc. simpl in Hc.
      destruct Hc as [<-|[<-|[<-|[<-|[]]]]]; eexists _, _; (split; [eassumption|done]). }
  assert (employee_data_of row !! "Employee ID" = Some (Str (str_cell id))) as Hid'.
  { unfold employee_data_of. by rewrite lookup_insert_eq, Hid. }
  destruct (create_payslip_ok _ _ w2 Hok Hid' Hfree) as (page & Hrun & _ & _ & Hnet).
  exists page. eexists. split; [exact Hrun|]. cbn [pdfs str_cell].
  rewrite lookup_insert_eq. split; [done|].
  assert (employee_data_of row !! "Net Salary" = Some (Num (b + a - d)%float)) as Hn'.
  { unfold employee_data_of. by rewrite lookup_insert_ne. }
  pose proof (Hnet _ _ Hn' eq_refl) as Hline. cbn [num_fmt float64_scalar] in Hline.
  rewrite (float64_fmt_negative _ Hneg) in Hline. exact Hline.
Qed.

(** * The claims on the sample roster *)

(** [str] and [format] of a few floats, as Python prints them *)
Example float64_prints :
  float64_str 104%float = "104.0" ∧ float64_str 0.1%float = "0.1" ∧
  float64_str (0.1 + 0.2)%float = "0.30000000000000004" ∧
  float64_str 1e16%float = "1e+16" ∧
  float64_fmt 1234567.891%float = "1,234,567.89" ∧
  float64_fmt 0.125%float = "0.12" ∧ float64_fmt 0.375%float = "0.38" ∧
  float64_fmt (-0.001)%float = "-0.00" ∧
  float64_fmt (300.505 + 50 - 400.75)%float = "-50.25".
Proof. vm_compute. done. Qed.

Example bad_day_rendering :
  (generate_payslips_batch excel_file [1; 1]%nat bad_day).1 = Ok rendered_files.
Proof. vm_compute. reflexivity. Qed.

(** The run of the script on [bad_day]: Cleo's payslip goes to Ada, Ada's
    to Ben, and Dov, whose payslip was rendered, gets no mail. *)
Example bad_day_run :
  let w' := (main [1; 1]%nat [0]%nat bad_day).2 in
  stdout w' =
    ["Generating payslips...";
     "Error generating payslip: [Errno 13] Permission denied: 'payslips/102.pdf'";
     nl +:+ "Sending emails...";
     "Email sent successfully to ada@example.org";
     "Email sent successfully to ben@example.org";
     "Error sending email to cleo@example.org: Recipient refused: cleo@example.org";
     nl +:+ "Email sending complete!";
     "Successfully sent 2 emails out of 3"] ∧
  ((λ m, (msg_to m, msg_attachment_name m)) <$> outbox w') =
    [("ada@example.org", "E-103.pdf"); ("ben@example.org", "101.pdf")].
Proof. vm_compute. split; reflexivity. Qed.

(** The third row of the sample roster: 500 + 100 - 600 is shown as zero. *)
Example zero_net_salary :
  row_at loaded_roster 2 !! "Net Salary" ≫= (λ c, Some (format_2f c)) = Some (Ok "0.00").
Proof. vm_compute. reflexivity. Qed.

Lemma net_salary_is_derived_witness :
  load_employee_data excel_file (world_of roster) = (Ok (Some loaded_roster), world_of roster) ∧
  (3 < nrows loaded_roster)%nat ∧
  row_at loaded_roster 3 !! "Net Salary" = Some (Num (300.505 + 50 - 400.75)%float).
Proof.
  assert (load_employee_data excel_file (world_of roster)
          = (Ok (Some loaded_roster), world_of roster)) as Hload by (vm_compute; reflexivity).
  assert (3 < nrows loaded_roster)%nat as Hi by (simpl; lia).
  split; [exact Hload|]. split; [exact Hi|].
  destruct (net_salary_is_derived excel_file (world_of roster) loaded_roster
              (world_of roster) 3 Hload Hi)
    as (df & basic & allowances & deductions & gross & net &
        _ & _ & _ & Hb & Ha & Hd & Hn & _ & _ & Hnum).
  rewrite Hn. f_equal. apply Hnum.
  - vm_compute in Hb. by injection Hb as <-.
  - vm_compute in Ha. by injection Ha as <-.
  - vm_compute in Hd. by injection Hd as <-.
Defined.

Lemma load_rejects_blank_row_witness :
  load_employee_data excel_file (world_of roster_blank_email) =
    load_failure (world_of roster_blank_email)
      (ValueError "Missing data for employee: Ben").
Proof.
  destruct (load_rejects_blank_row excel_file (world_of roster_blank_email)
              roster_blank_email 1) as (e & Hload & Hmsg).
  - vm_compute. reflexivity.
  - simpl. lia.
  - right. vm_compute. reflexivity.
  - rewrite Hload. f_equal.
    destruct Hmsg as (j & name & Hj & Hblank & Hname & _ & ->).
    + vm_compute. reflexivity.
    + eexists. vm_compute. reflexivity.
    + destruct j as [|[|j]]; [| |lia].
      * destruct Hblank as [Hblank|Hblank]; vm_compute in Hblank; discriminate.
      * vm_compute in Hname. by injection Hname as <-.
Defined.

Lemma load_rejects_missing_column_witness :
  load_employee_data excel_file (world_of roster_no_deductions) =
    load_failure (world_of roster_no_deductions)
      (ValueError "Excel file missing required columns").
Proof.
  apply (load_rejects_missing_column _ _ roster_no_deductions "Deductions").
  - vm_compute. reflexivity.
  - in_list.
  - vm_compute. reflexivity.
Defined.

Lemma payslip_path_deterministic_witness :
  ∃ page1 w1',
    create_payslip ada (world_of roster) = (Ok "payslips/101.pdf", w1') ∧
    pdfs w1' !! "payslips/101.pdf" = Some page1 ∧
    ∀ w2 : world float, pdfs w2 = pdfs w1' → "payslips/101.pdf" ∉ locked w2 →
      ∃ page2 w2',
        create_payslip ada w2 = (Ok "payslips/101.pdf", w2') ∧
        pdfs w2' = <["payslips/101.pdf" := page2]> (pdfs w1') ∧
        dom (pdfs w2') = dom (pdfs w1').
Proof.
  destruct (payslip_path_deterministic ada (Str "101") (world_of roster))
    as (page1 & w1' & Hrun1 & Hfile1 & _ & Hrerun).
  - vm_compute. reflexivity.
  - vm_compute. reflexivity.
  - refine (bool_decide_unpack _ _). vm_compute. exact I.
  - exists page1, w1'. split; [exact Hrun1|]. split; [exact Hfile1|].
    intros w2 Hpdfs Hfree.
    destruct (Hrerun w2 Hpdfs Hfree) as (page2 & w2' & Hrun2 & Hfile2 & _ & Hdom).
    exists page2, w2'. split; [exact Hrun2|]. split; [exact Hfile2|exact Hdom].
Defined.

Lemma send_payslips_pairs_by_position_witness :
  ∃ sent_count w' m,
    send_payslips rendered_files loaded_roster main_smtp_config [0]%nat after_rendering
      = (Ok sent_count, w') ∧
    CallSend (Str "ada@example.org") "payslips/E-103.pdf" ∈ calls w' ∧
    m ∈ outbox w' ∧ msg_to m = "ada@example.org" ∧
    msg_attachment_name m = basename "payslips/E-103.pdf".
Proof.
  destruct (send_payslips_pairs_by_position rendered_files loaded_roster main_smtp_config
              [0]%nat after_rendering 0 "payslips/E-103.pdf" (Str "ada@example.org"))
    as (sent_count & w' & attempts & Hrun & Hcalls & Hcall & Hmail).
  - eexists. vm_compute. reflexivity.
  - reflexivity.
  - simpl. lia.
  - vm_compute. reflexivity.
  - assert (is_Some (pdfs after_rendering !! "payslips/E-103.pdf")) as [page Hpage].
    { eexists. vm_compute. reflexivity. }
    destruct (Hmail page "ada@example.org" Hpage eq_refl) as (m & Hm & Hto & _ & Hname).
    { refine (bool_decide_unpack _ _). vm_compute. exact I. }
    exists sent_count, w', m. split; [exact Hrun|]. split.
    { rewrite Hcalls. apply elem_of_app. by right. }
    split; [exact Hm|]. split; [exact Hto|exact Hname].
Defined.

Lemma send_payslips_counts_successes_witness :
  ∃ sent_count w',
    send_payslips rendered_files loaded_roster main_smtp_config [0]%nat after_rendering
      = (Ok sent_count, w') ∧
    (sent_count ≤ 3)%nat ∧
    sent_count = (length (outbox w') - length (outbox after_rendering))%nat.
Proof.
  destruct (send_payslips_counts_successes rendered_files loaded_roster main_smtp_config
              [0]%nat after_rendering)
    as (sent_count & w' & attempts & delivered & Hrun & _ & Hperm & Hout & Hn & Hle & _).
  - eexists. vm_compute. reflexivity.
  - eexists. vm_compute. reflexivity.
  - exists sent_count, w'. split; [exact Hrun|]. split.
    + rewrite Hperm in Hle. exact Hle.
    + rewrite Hout, length_app. lia.
Defined.

Lemma send_payslips_attempts_shorter_witness :
  ∃ sent_count w' attempts,
    send_payslips rendered_files loaded_roster main_smtp_config [0]%nat after_rendering
      = (Ok sent_count, w') ∧
    calls w' = (calls after_rendering ++ attempts)%list ∧
    length attempts = 3%nat ∧ nrows loaded_roster = 4%nat.
Proof.
  destruct (send_payslips_attempts_shorter rendered_files loaded_roster main_smtp_config
              [0]%nat after_rendering)
    as (sent_count & w' & attempts & lines & Hrun & Hcalls & _ & Hlen & _).
  - eexists. vm_compute. reflexivity.
  - eexists. vm_compute. reflexivity.
  - exists sent_count, w', attempts. split; [exact Hrun|]. split; [exact Hcalls|].
    split; [exact Hlen|reflexivity].
Defined.

Lemma main_stops_when_load_fails_witness :
  ∃ w',
    main [1; 1]%nat [0]%nat (world_of roster_blank_email) = (Ok tt, w') ∧
    calls w' = [] ∧ pdfs w' = ∅ ∧ outbox w' = [].
Proof.
  destruct (main_stops_when_load_fails [1; 1]%nat [0]%nat (world_of roster_blank_email))
    as (e & w' & Hmain & _ & Hcalls & Hpdfs & _ & Hout).
  - vm_compute. reflexivity.
  - exists w'. split; [exact Hmain|]. split; [exact Hcalls|]. split; [exact Hpdfs|exact Hout].
Defined.

(** C9 read with the excess taken on the numbers in the cells: the second
    row of [payroll] has deductions 0.30000000000000004 against a basic
    salary of 0.1 and allowances of 0.2, so its deductions exceed the sum
    of the other two.  The float64 sum of 0.1 and 0.2 rounds up to the
    deductions, the net salary stored is 0.0, which is not negative, and
    the payslip shows it without a sign. *)
Lemma excess_lost_in_rounding :
  load_employee_data excel_file payroll_world = (Ok (Some loaded_payroll), payroll_world) ∧
  row_at loaded_payroll 1 !! "Basic Salary" = Some (Num 0.1%float) ∧
  row_at loaded_payroll 1 !! "Allowances" = Some (Num 0.2%float) ∧
  row_at loaded_payroll 1 !! "Deductions" = Some (Num 0.30000000000000004%float) ∧
  (float_value 0.1 + float_value 0.2 < float_value 0.30000000000000004)%Q ∧
  row_at loaded_payroll 1 !! "Net Salary" = Some (Num 0%float) ∧
  (0 <? 0)%float = false ∧
  ∃ page w2',
    create_payslip (employee_data_of (row_at loaded_payroll 1)) payroll_world
      = (Ok "payslips/E-202.pdf", w2') ∧
    pdfs w2' !! "payslips/E-202.pdf" = Some page ∧
    DrawString 20 120 "📊 Net Salary: $0.00" ∈ page.
Proof.
  split; [vm_compute; reflexivity|].
  split; [vm_compute; reflexivity|].
  split; [vm_compute; reflexivity|].
  split; [vm_compute; reflexivity|].
  split; [vm_compute; reflexivity|].
  split; [vm_compute; reflexivity|].
  split; [vm_compute; reflexivity|].
  eexists _, _. split; [vm_compute; reflexivity|].
  split; [vm_compute; reflexivity|]. in_list.
Qed.

Lemma net_salary_has_no_floor_witness :
  (300.505 + 50 <? 400.75)%float = true ∧
  row_at loaded_payroll 0 !! "Net Salary" = Some (Num (300.505 + 50 - 400.75)%float) ∧
  ∃ page w2',
    create_payslip (employee_data_of (row_at loaded_payroll 0)) payroll_world
      = (Ok "payslips/E-201.pdf", w2') ∧
    pdfs w2' !! "payslips/E-201.pdf" = Some page ∧
    DrawString 20 120 "📊 Net Salary: $-50.25" ∈ page.
Proof.
  assert ((300.505 + 50 <? 400.75)%float = true) as Hlt by (vm_compute; reflexivity).
  split; [exact Hlt|].
  destruct (net_salary_has_no_floor excel_file payroll_world loaded_payroll
              payroll_world 0 300.505 50 400.75)
    as (Hnet & _ & Hrender).
  - vm_compute. reflexivity.
  - simpl. lia.
  - vm_compute. reflexivity.
  - vm_compute. reflexivity.
  - vm_compute. reflexivity.
  - exact Hlt.
  - split; [exact Hnet|].
    destruct (Hrender payroll_world (Str "E-201")) as (page & w2' & Hrun & Hfile & Hline).
    + vm_compute. reflexivity.
    + refine (bool_decide_unpack _ _). vm_compute. exact I.
    + exists page, w2'. split; [exact Hrun|]. split; [exact Hfile|exact Hline].
Defined.

(** * The further properties on the sample roster *)

Lemma load_accepts_clean_roster_witness :
  load_employee_data excel_file (world_of roster) = (Ok (Some loaded_roster), world_of roster).
Proof.
  destruct (load_accepts_clean_roster excel_file (world_of roster) roster)
    as (df' & net & Hload & _).
  - vm_compute. reflexivity.
  - vm_compute. reflexivity.
  - vm_compute. reflexivity.
  - rewrite Hload. vm_compute in Hload. injection Hload as <-. vm_compute. reflexivity.
Defined.

Lemma loaded_roster_invariant_witness :
  ∃ id email,
    row_at loaded_roster 1 !! "Employee ID" = Some id ∧
    row_at loaded_roster 1 !! "Email" = Some email ∧ id ≠ NaN ∧ email ≠ NaN.
Proof.
  destruct (loaded_roster_invariant excel_file (world_of roster) loaded_roster
              (world_of roster) 1) as [_ Hrow].
  - vm_compute. reflexivity.
  - simpl. lia.
  - exact Hrow.
Defined.

Lemma blank_amount_gives_blank_net_witness :
  row_at loaded_blank_allowance 1 !! "Net Salary" = Some NaN ∧
  ∃ page w2',
    create_payslip (employee_data_of (row_at loaded_blank_allowance 1)) (world_of roster)
      = (Ok "payslips/102.pdf", w2') ∧
    pdfs w2' !! "payslips/102.pdf" = Some page ∧
    DrawString 20 120 "📊 Net Salary: $nan" ∈ page.
Proof.
  destruct (blank_amount_gives_blank_net excel_file (world_of roster_blank_allowance)
              loaded_blank_allowance (world_of roster_blank_allowance) 1 "Allowances")
    as [Hnet Hrender].
  - vm_compute. reflexivity.
  - simpl. lia.
  - in_list.
  - vm_compute. reflexivity.
  - split; [exact Hnet|].
    destruct (Hrender (world_of roster) (Str "102")) as (page & w2' & Hrun & Hfile & Hline).
    + vm_compute. reflexivity.
    + vm_compute. reflexivity.
    + refine (bool_decide_unpack _ _). vm_compute. exact I.
    + exists page, w2'. split; [exact Hrun|]. split; [exact Hfile|exact Hline].
Defined.

Lemma unrenderable_record_writes_nothing_witness :
  ∃ e w',
    create_payslip (delete "Name" ada) (world_of roster) = (Raise e, w') ∧
    pdfs w' = pdfs (world_of roster).
Proof.
  destruct (unrenderable_record_writes_nothing (delete "Name" ada) (world_of roster))
    as (e & w' & Hrun & Hpdfs & _).
  - left. vm_compute. reflexivity.
  - exists e, w'. split; [exact Hrun|exact Hpdfs].
Defined.

Lemma create_payslip_touches_one_file_witness :
  pdfs (create_payslip ada after_rendering).2 !! "payslips/104.pdf" =
  pdfs after_rendering !! "payslips/104.pdf".
Proof.
  apply (create_payslip_touches_one_file ada after_rendering
           (create_payslip ada after_rendering).1).
  - by destruct (create_payslip ada after_rendering).
  - intros Heq. vm_compute in Heq. discriminate Heq.
Defined.

Lemma batch_renders_clean_roster_witness :
  ∃ generated_files w',
    generate_payslips_batch excel_file [1; 1]%nat (world_of roster)
      = (Ok generated_files, w') ∧
    length generated_files = 4%nat ∧ stdout w' = [].
Proof.
  destruct (batch_renders_clean_roster excel_file [1; 1]%nat (world_of roster) roster)
    as (generated_files & w' & Hrun & _ & Hlen & Hstd & _).
  - vm_compute. reflexivity.
  - vm_compute. reflexivity.
  - vm_compute. reflexivity.
  - vm_compute. reflexivity.
  - exists generated_files, w'. split; [exact Hrun|]. split; [exact Hlen|exact Hstd].
Defined.

Lemma send_payslips_aligned_witness :
  ∃ sent_count w' delivered,
    send_payslips (payslip_path <$> iterrows loaded_roster) loaded_roster main_smtp_config
      [2; 0]%nat after_rendering = (Ok sent_count, w') ∧
    outbox w' = (outbox after_rendering ++ delivered)%list ∧
    sent_count = length delivered.
Proof.
  destruct (send_payslips_aligned loaded_roster main_smtp_config [2; 0]%nat after_rendering)
    as (sent_count & w' & delivered & Hrun & Hout & Hcount & _).
  - eexists. vm_compute. reflexivity.
  - eexists. vm_compute. reflexivity.
  - exists sent_count, w', delivered. split; [exact Hrun|]. split; [exact Hout|exact Hcount].
Defined.

Lemma send_payslips_missing_column_witness :
  send_payslips [] roster_no_name main_smtp_config [0]%nat (world_of roster)
    = (Ok 0%nat, world_of roster) ∧
  ∃ key,
    send_payslips rendered_files roster_no_name main_smtp_config [0]%nat (world_of roster)
      = (Raise (KeyError key), world_of roster).
Proof.
  destruct (send_payslips_missing_column [] roster_no_name main_smtp_config [0]%nat
              (world_of roster)) as [Hnone _].
  { left. vm_compute. reflexivity. }
  destruct (send_payslips_missing_column rendered_files roster_no_name main_smtp_config
              [0]%nat (world_of roster)) as [_ Hsome].
  { left. vm_compute. reflexivity. }
  split; [apply Hnone; by left|].
  destruct Hsome as (key & Hrun & _); [done|simpl; lia|]. by exists key.
Defined.

Lemma main_on_empty_roster_witness :
  ∃ w',
    main [] [] (world_of empty_roster) = (Ok tt, w') ∧
    last (stdout w') = Some "Successfully sent 0 emails out of 0" ∧ calls w' = [].
Proof.
  destruct (main_on_empty_roster [] [] (world_of empty_roster) empty_roster)
    as (w' & Hmain & Hstd & Hcalls & _).
  - vm_compute. reflexivity.
  - vm_compute. reflexivity.
  - reflexivity.
  - exists w'. split; [exact Hmain|]. split; [by rewrite Hstd|exact Hcalls].
Defined.

Lemma main_in_order_delivers_own_payslips_witness :
  ∃ w' m,
    main [] [1]%nat (world_of roster) = (Ok tt, w') ∧
    m ∈ outbox w' ∧ msg_to m = "cleo@example.org" ∧
    msg_attachment_name m = basename (payslip_path (row_at roster 2)).
Proof.
  destruct (main_in_order_delivers_own_payslips [1]%nat (world_of roster) roster)
    as (w' & delivered & Hmain & Hout & _ & Hall).
  - vm_compute. reflexivity.
  - vm_compute. reflexivity.
  - vm_compute. reflexivity.
  - vm_compute. reflexivity.
  - destruct (Hall 2%nat "cleo@example.org") as (m & Hm & Hto & Hname).
    + simpl. lia.
    + vm_compute. reflexivity.
    + refine (bool_decide_unpack _ _). vm_compute. exact I.
    + exists w', m. split; [exact Hmain|]. split.
      { rewrite Hout. apply elem_of_app. by right. }
      split; [exact Hto|exact Hname].
Defined.

Lemma payslip_attachment_name_witness :
  basename (payslip_path ada) = "101.pdf".
Proof.
  apply (payslip_attachment_name ada (Str "101")).
  - vm_compute. reflexivity.
  - vm_compute. reflexivity.
Defined.
